(** * Diabetes prediction app (src/app.py): categorizers, prediction
      adapter and session history

    A shallow embedding of the logic of the Streamlit script [src/app.py]:
    the sidebar sliders and the record they build, the two glucose
    classifications, the call into the pickled scaler and classifier, and
    the session-scoped prediction history with its display and its clear
    button; then the blocks of the main page that depend on the glucose
    value or on the label, and the feature importance chart.

    Conventions.
    - A Python [int] is a [Z].  A finite Python [float] is a rational and
      Python compares [int] with [float] exactly, so numbers that may be
      floats are [Q] and [<] on them is the order of [Q].
    - The scaler and the classifier are opaque objects loaded from disk;
      they are records of functions, and a call that raises returns
      [Raise].
    - [st.session_state] is a record threaded through the script.
    - Labels are the (Indonesian) strings of the source: Puasa = fasting,
      2 jam = 2-hour, Rendah / Sedang / Tinggi = low / medium / high. *)

From Stdlib Require Import ZArith QArith Qabs Ascii String Lia.
From stdpp Require Import base list sorting.

(** ** Python values *)

(** [x < y] on numbers, as the boolean Python computes. *)
Definition Qltb (x y : Q) : bool := negb (Qle_bool y x).

(** The outcome of a call that may raise; [Raise] carries the message. *)
Inductive result (A : Type) : Type :=
| Ok (a : A)
| Raise (msg : string).
Arguments Ok {A} a.
Arguments Raise {A} msg.

#[global] Instance result_ret : MRet result := fun A a => Ok a.
#[global] Instance result_bind : MBind result := fun A B f m =>
  match m with
  | Ok a => f a
  | Raise msg => Raise msg
  end.

(** [l[i]] for [i >= 0]: IndexError out of range. *)
Definition getitem {A} (l : list A) (i : nat) : result A :=
  match l !! i with
  | Some a => Ok a
  | None => Raise "IndexError"
  end.

(** ** Sidebar: the eight sliders (get_user_input, lines 139-295) *)

(** The positional arguments [min_value, max_value, value] of a call of
    [st.slider]. *)
Record Slider (A : Type) : Type := mkSlider
  { min_value : A; max_value : A; value : A }.
Arguments mkSlider {A}.
Arguments min_value {A}.
Arguments max_value {A}.
Arguments value {A}.

(** [st.slider] returns the position the user left the widget at, and the
    default [value] while the widget is untouched.  The widget state is
    what Streamlit keeps under the slider's [key]. *)
Definition st_slider {A} (s : Slider A) (widget : option A) : A :=
  default (value s) widget.

Definition pregnancies_slider : Slider Z := mkSlider 0%Z 20%Z 1%Z.
Definition glucose_slider : Slider Z := mkSlider 50%Z 400%Z 120%Z.
Definition blood_pressure_slider : Slider Z := mkSlider 40%Z 180%Z 70%Z.
Definition skin_thickness_slider : Slider Z := mkSlider 0%Z 99%Z 20%Z.
Definition insulin_slider : Slider Z := mkSlider 0%Z 1000%Z 80%Z.
Definition bmi_slider : Slider Q := mkSlider 10.0%Q 60.0%Q 25.0%Q.
Definition diabetes_pedigree_slider : Slider Q := mkSlider 0.08%Q 2.50%Q 0.5%Q.
Definition age_slider : Slider Z := mkSlider 0%Z 100%Z 30%Z.

(** The widget states, by slider key. *)
Record Sidebar : Type := mkSidebar
  { pregnancies_input : option Z;
    glucose_input : option Z;
    blood_pressure_input : option Z;
    skin_thickness_input : option Z;
    insulin_input : option Z;
    bmi_input : option Q;
    diabetes_pedigree_input : option Q;
    age_input : option Z }.

(** The one-row DataFrame built at lines 284-295; the fields are its
    columns, in the insertion order of the dictionary. *)
Record PatientInput : Type := mkPatientInput
  { Pregnancies : Z;
    Glucose : Z;
    BloodPressure : Z;
    SkinThickness : Z;
    Insulin : Z;
    BMI : Q;
    DiabetesPedigreeFunction : Q;
    Age : Z }.

Definition get_user_input (ui : Sidebar) : PatientInput :=
  let pregnancies := st_slider pregnancies_slider (pregnancies_input ui) in
  let glucose := st_slider glucose_slider (glucose_input ui) in
  let blood_pressure := st_slider blood_pressure_slider (blood_pressure_input ui) in
  let skin_thickness := st_slider skin_thickness_slider (skin_thickness_input ui) in
  let insulin := st_slider insulin_slider (insulin_input ui) in
  let bmi := st_slider bmi_slider (bmi_input ui) in
  let diabetes_pedigree := st_slider diabetes_pedigree_slider (diabetes_pedigree_input ui) in
  let age := st_slider age_slider (age_input ui) in
  {| Pregnancies := pregnancies;
     Glucose := glucose;
     BloodPressure := blood_pressure;
     SkinThickness := skin_thickness;
     Insulin := insulin;
     BMI := bmi;
     DiabetesPedigreeFunction := diabetes_pedigree;
     Age := age |}.

(** The live glucose feedback of the sidebar (lines 178-190): the pair
    [(glucose_status, glucose_class)]. *)
Definition sidebar_glucose_status (glucose : Z) : string * string :=
  if (glucose <? 140)%Z then ("🟢 Normal", "glukosa-normal")%string
  else if (glucose <? 200)%Z then ("🟡 Prediabetes", "glukosa-prediabetes")%string
  else ("🔴 Diabetes", "glukosa-diabetes")%string.

(** The BMI caption of the sidebar (lines 239-247). *)
Definition sidebar_bmi_status (bmi : Q) : string :=
  if Qltb bmi 18.5 then "⚪ Kurus"
  else if Qltb bmi 25 then "🟢 Normal"
  else if Qltb bmi 30 then "🟡 Gemuk"
  else "🔴 Obesitas".

(** ** Glucose analysis (analyze_glucose_level, lines 320-345) *)

(** Returns [(category, color, risk)]. *)
Definition analyze_glucose_level (glucose_value : Q) : string * string * string :=
  if Qltb glucose_value 100 then ("Normal (Puasa)", "green", "Rendah")%string
  else if Qltb glucose_value 126 then ("Prediabetes (Puasa)", "orange", "Sedang")%string
  else if Qltb glucose_value 140 then ("Diabetes (Puasa)", "red", "Tinggi")%string
  else if Qltb glucose_value 200 then ("Prediabetes (2 jam)", "orange", "Sedang")%string
  else ("Diabetes (2 jam)", "red", "Tinggi")%string.

Definition category_of (r : string * string * string) : string := r.1.1.
Definition risk_of (r : string * string * string) : string := r.2.

(** ** Scaler, classifier and the prediction (lines 117-134, 300-315) *)

(** A two-dimensional array, row by row. *)
Abbreviation array2 := (list (list Q)) (only parsing).

Record Scaler : Type := mkScaler
  { transform : array2 -> result array2 }.

Record Model : Type := mkModel
  { predict : array2 -> result (list Z);
    predict_proba : array2 -> result array2 }.

(** The array a one-row DataFrame is read as: one row, the columns in
    their order. *)
Definition values (input_df : PatientInput) : array2 :=
  [[inject_Z (Pregnancies input_df);
    inject_Z (Glucose input_df);
    inject_Z (BloodPressure input_df);
    inject_Z (SkinThickness input_df);
    inject_Z (Insulin input_df);
    BMI input_df;
    DiabetesPedigreeFunction input_df;
    inject_Z (Age input_df)]].

(** The body of the [try] block of make_prediction. *)
Definition make_prediction_try (model : Model) (scaler : Scaler)
    (input_df : PatientInput) : result (Z * list Q) :=
  input_scaled ← transform scaler (values input_df);
  prediction ← predict model input_scaled;
  prediction_proba ← predict_proba model input_scaled;
  p0 ← getitem prediction 0;
  pr0 ← getitem prediction_proba 0;
  mret (p0, pr0).

(** make_prediction: any exception is caught and gives [(None, None)]. *)
Definition make_prediction (model : Model) (scaler : Scaler)
    (input_df : PatientInput) : option Z * option (list Q) :=
  match make_prediction_try model scaler input_df with
  | Ok (p0, pr0) => (Some p0, Some pr0)
  | Raise _ => (None, None)
  end.

(** What unpickling the two files gives; [None] when the file is absent
    or does not load. *)
Record Disk : Type := mkDisk
  { best_diabetes_model_pkl : option Model;
    scaler_pkl : option Scaler }.

Definition load_models (disk : Disk) : option Model * option Scaler :=
  match best_diabetes_model_pkl disk, scaler_pkl disk with
  | Some model, Some scaler => (Some model, Some scaler)
  | _, _ => (None, None)
  end.

(** ** Session state and the script (lines 109-112, 364-384, 484-507, 744-770) *)

(** The dictionary stored at lines 495-502. *)
Record HistoryEntry : Type := mkHistoryEntry
  { data : PatientInput;
    prediction : Z;
    probabilities : list Q;
    timestamp : string;
    glucose : Z;
    glucose_category : string }.

Record SessionState : Type := mkSessionState
  { prediction_history : list HistoryEntry;
    current_prediction : option HistoryEntry }.

(** Lines 109-112: the state of a new session. *)
Definition initial_state : SessionState :=
  {| prediction_history := []; current_prediction := None |}.

(** Lines 376-384.  The button is only drawn while the history is not
    empty; the second component says whether [st.rerun()] was called. *)
Definition clear_section (clear_button : bool) (st : SessionState)
    : SessionState * bool :=
  match prediction_history st with
  | [] => (st, false)
  | _ :: _ =>
      if clear_button
      then ({| prediction_history := [];
               current_prediction := current_prediction st |}, true)
      else (st, false)
  end.

(** Lines 484-507.  [now] is [datetime.now()] formatted; [user_glucose]
    is the Glucose cell of the input row (lines 407, 438).  The guard of
    line 493 tests the label alone; make_prediction returns both
    components or neither, so the pattern below names both. *)
Definition predict_section (predict_button : bool) (disk : Disk)
    (now : string) (input_df : PatientInput) (st : SessionState) : SessionState :=
  let user_glucose := Glucose input_df in
  if predict_button then
    match load_models disk with
    | (Some model, Some scaler) =>
        match make_prediction model scaler input_df with
        | (Some prediction, Some probabilities) =>
            let entry :=
              {| data := input_df;
                 prediction := prediction;
                 probabilities := probabilities;
                 timestamp := now;
                 glucose := user_glucose;
                 glucose_category :=
                   category_of (analyze_glucose_level (inject_Z user_glucose)) |} in
            {| prediction_history := prediction_history st ++ [entry];
               current_prediction := Some entry |}
        | _ => st
        end
    | _ => st
    end
  else st.

(** [l[-n:]] for [n > 0]: the last [n] elements, all of [l] when it is
    shorter. *)
Definition slice_last {A} (n : nat) (l : list A) : list A :=
  drop (length l - n) l.

(** Line 748: [reversed(prediction_history[-5:])]. *)
Definition recent_entries (history : list HistoryEntry) : list HistoryEntry :=
  reverse (slice_last 5 history).

(** Line 762. *)
Definition status_text (pred : HistoryEntry) : string :=
  if (prediction pred =? 0)%Z then "Non-Diabetes ✅" else "Diabetes ⚠️".

(** Lines 744-770: the expanders drawn, numbered from 1 by [enumerate];
    reading the history leaves the state as it is. *)
Definition history_section (st : SessionState) : list (nat * HistoryEntry) :=
  imap (fun i pred => (S i, pred)) (recent_entries (prediction_history st)).

(** One pass over the script, top to bottom.  [st.rerun()] stops the pass
    where it is called. *)
Definition script_pass (ui : Sidebar) (predict_button clear_button : bool)
    (disk : Disk) (now : string) (st : SessionState) : SessionState * bool :=
  let input_df := get_user_input ui in
  match clear_section clear_button st with
  | (st1, true) => (st1, true)
  | (st1, false) => (predict_section predict_button disk now input_df st1, false)
  end.

(** One interaction: a pass, and after [st.rerun()] a second pass in which
    no button reads as pressed. *)
Definition run_script (ui : Sidebar) (predict_button clear_button : bool)
    (disk : Disk) (now : string) (st : SessionState) : SessionState :=
  match script_pass ui predict_button clear_button disk now st with
  | (st1, true) => (script_pass ui false false disk now st1).1
  | (st1, false) => st1
  end.

(** The states a session can be in. *)
Inductive reachable : SessionState -> Prop :=
| reachable_init : reachable initial_state
| reachable_step ui predict_button clear_button disk now st :
    reachable st ->
    reachable (run_script ui predict_button clear_button disk now st).

(** ** Properties the statements below are about *)

(** [lo <= v <= hi] for the bounds of a slider. *)
Definition within {A} (le : A -> A -> Prop) (s : Slider A) (v : A) : Prop :=
  le (min_value s) v /\ le v (max_value s).

(** Streamlit keeps every slider between the bounds it was declared with. *)
Definition sidebar_in_bounds (ui : Sidebar) : Prop :=
  from_option (within Z.le pregnancies_slider) True (pregnancies_input ui) /\
  from_option (within Z.le glucose_slider) True (glucose_input ui) /\
  from_option (within Z.le blood_pressure_slider) True (blood_pressure_input ui) /\
  from_option (within Z.le skin_thickness_slider) True (skin_thickness_input ui) /\
  from_option (within Z.le insulin_slider) True (insulin_input ui) /\
  from_option (within Qle bmi_slider) True (bmi_input ui) /\
  from_option (within Qle diabetes_pedigree_slider) True (diabetes_pedigree_input ui) /\
  from_option (within Z.le age_slider) True (age_input ui).

(** The range table of the data model: Pregnancies [0,20], Glucose
    [50,400], BloodPressure [40,180], SkinThickness [0,99], Insulin
    [0,1000], BMI [10.0,60.0], DiabetesPedigree [0.08,2.50], Age [0,100]. *)
Definition declared_ranges (input_df : PatientInput) : Prop :=
  (0 <= Pregnancies input_df <= 20)%Z /\
  (50 <= Glucose input_df <= 400)%Z /\
  (40 <= BloodPressure input_df <= 180)%Z /\
  (0 <= SkinThickness input_df <= 99)%Z /\
  (0 <= Insulin input_df <= 1000)%Z /\
  (10.0 <= BMI input_df <= 60.0)%Q /\
  (0.08 <= DiabetesPedigreeFunction input_df <= 2.50)%Q /\
  (0 <= Age input_df <= 100)%Z.

(** Two entries, none negative, summing to 1 within 1e-6. *)
Definition valid_distribution (p : list Q) : Prop :=
  length p = 2 /\
  Forall (fun x => (0 <= x)%Q) p /\
  (Qabs (foldr Qplus 0%Q p - 1) <= 1e-6)%Q.

(** The interface of the model artifact: every row the classifier
    returns as probabilities is such a distribution over the two
    classes. *)
Definition model_distributions_valid (model : Model) : Prop :=
  forall X rows row,
    predict_proba model X = Ok rows -> row ∈ rows -> valid_distribution row.

(** Each stored entry agrees with its own input snapshot. *)
Definition entry_consistent (e : HistoryEntry) : Prop :=
  glucose e = Glucose (data e) /\
  glucose_category e =
    category_of (analyze_glucose_level (inject_Z (glucose e))).

(** ** Test doubles *)

(** A scaler that hands its input back. *)
Definition identity_scaler : Scaler := {| transform := fun X => Ok X |}.

(** A classifier that answers label 0 with probabilities [0.8, 0.2]. *)
Definition stub_model : Model :=
  {| predict := fun _ => Ok [0%Z];
     predict_proba := fun _ => Ok [[0.8%Q; 0.2%Q]] |}.

(** A classifier whose calls raise. *)
Definition failing_model : Model :=
  {| predict := fun _ => Raise "ValueError";
     predict_proba := fun _ => Raise "ValueError" |}.

Definition stub_disk : Disk :=
  {| best_diabetes_model_pkl := Some stub_model;
     scaler_pkl := Some identity_scaler |}.

(** Only the scaler file is there. *)
Definition disk_without_model : Disk :=
  {| best_diabetes_model_pkl := None;
     scaler_pkl := Some identity_scaler |}.

(** Both files load, and the classifier raises when called. *)
Definition disk_failing_model : Disk :=
  {| best_diabetes_model_pkl := Some failing_model;
     scaler_pkl := Some identity_scaler |}.

(** All sliders untouched. *)
Definition fresh_sidebar : Sidebar :=
  mkSidebar None None None None None None None None.

(** The default patient: Pregnancies 1, Glucose 120, BloodPressure 70,
    SkinThickness 20, Insulin 80, BMI 25.0, DiabetesPedigree 0.5, Age 30. *)
Definition default_input : PatientInput :=
  mkPatientInput 1 120 70 20 80 25.0 0.5 30.

(** An entry as a submission with glucose [g] and label 0 stores it. *)
Definition sample_entry (g : Z) : HistoryEntry :=
  {| data := mkPatientInput 1 g 70 20 80 25.0 0.5 30;
     prediction := 0;
     probabilities := [0.8%Q; 0.2%Q];
     timestamp := "2024-01-01 00:00:00";
     glucose := g;
     glucose_category := category_of (analyze_glucose_level (inject_Z g)) |}.

(** A history of six entries, oldest first. *)
Definition sample_history : list HistoryEntry :=
  map sample_entry [90; 110; 130; 150; 210; 95]%Z.

(** A record no slider position gives: Glucose 1000, Age -5. *)
Definition out_of_range_input : PatientInput :=
  mkPatientInput 1 1000 70 20 80 25.0 0.5 (-5).

(** ** The main page: glucose scale, interpretation, result (lines 407-477, 510-690) *)

(** Lines 422-428: the bands of the glucose scale,
    [(start, end, label, color)]. *)
Definition ranges : list (Z * Z * string * string) :=
  [ (0, 100, "Normal
(Puasa)", "#28a745");
    (100, 126, "Prediabetes
(Puasa)", "#ffc107");
    (126, 140, "Diabetes
(Puasa)", "#dc3545");
    (140, 200, "Prediabetes
(2 jam)", "#ffc107");
    (200, 400, "Diabetes
(2 jam)", "#dc3545") ]%Z%string.

(** Lines 431-432: each band is drawn as a bar of width [end - start]
    starting at [left = start]; the pairs [(left, width)]. *)
Definition scale_bars : list (Z * Z) :=
  map (fun '(start, end_, label, color) => (start, end_ - start)%Z) ranges.

(** Line 456: the reference lines. *)
Definition thresholds : list Z := [100; 126; 140; 200]%Z.

(** Lines 469-476: the mark in front of a line of the interpretation. *)
Definition mark (b : bool) : string := if b then "✅" else "⚠️".

(** Lines 468-476: the marks of the three fasting lines and of the three
    2-hour lines. *)
Definition glucose_interpretation (user_glucose : Z) : list string * list string :=
  ([ mark (user_glucose <? 100)%Z;
     mark ((100 <=? user_glucose)%Z && (user_glucose <? 126)%Z);
     mark (user_glucose >=? 126)%Z ],
   [ mark (user_glucose <? 140)%Z;
     mark ((140 <=? user_glucose)%Z && (user_glucose <? 200)%Z);
     mark (user_glucose >=? 200)%Z ]).

(** Line 275: the warning under the sliders is shown. *)
Definition sidebar_glucose_warning (glucose : Z) : bool :=
  (glucose >=? 200)%Z.

(** Line 601: the critical warning of the result page is shown. *)
Definition critical_glucose_warning (user_glucose : Z) : bool :=
  (user_glucose >=? 200)%Z.

(** Lines 517-532: the headline of the result box. *)
Definition result_headline (prediction : Z) : string :=
  if (prediction =? 0)%Z then "✅ NON-DIABETES" else "⚠️ DIABETES".

(** Lines 593-598: the call made and its text. *)
Definition glucose_verdict (user_glucose : Z) : string * string :=
  if (user_glucose >=? 200)%Z then ("error", "**Nilai Diabetes**")%string
  else if (user_glucose >=? 140)%Z then ("warning", "**Nilai Prediabetes**")%string
  else ("success", "**Nilai Normal**")%string.

(** Lines 620-690: the heading of the recommendations shown. *)
Definition recommendation_heading (user_glucose : Z) : string :=
  if (user_glucose >=? 200)%Z
  then "### 🏥 **Rekomendasi untuk Nilai Diabetes (≥ 200 mg/dL):**"
  else if (user_glucose >=? 140)%Z
  then "### 🟡 **Rekomendasi untuk Nilai Prediabetes (140-199 mg/dL):**"
  else "### 🟢 **Rekomendasi untuk Nilai Normal (< 140 mg/dL):**".

(** ** Feature importance chart (lines 695-739) *)

(** Lines 700-701. *)
Definition feature_names : list string :=
  [ "Kehamilan"; "Glukosa"; "Tekanan Darah"; "Ketebalan Kulit";
    "Insulin"; "BMI"; "Riwayat Diabetes"; "Usia" ]%string.

(** A row of the DataFrame of lines 703-706: its index label and its two
    columns. *)
Record ImportanceRow : Type := mkImportanceRow
  { row_label : nat; Fitur : string; Importance : Q }.

(** [pd.DataFrame({'Fitur': ..., 'Importance': ...})]: the rows are
    labelled 0, 1, ... in order; columns of different lengths raise. *)
Definition importance_frame (importances : list Q) : result (list ImportanceRow) :=
  if (length importances =? length feature_names)%nat
  then Ok (imap (fun i nv => mkImportanceRow i nv.1 nv.2)
             (zip feature_names importances))
  else Raise "ValueError".

(** [s1 in s2] on strings. *)
Definition contains (s1 s2 : string) : bool :=
  match String.index 0 s1 s2 with
  | Some _ => true
  | None => false
  end.

(** A bar of the horizontal bar chart. *)
Record Bar : Type := mkBar
  { bar_y : string;
    bar_width : Q;
    bar_color : string;
    bar_edgecolor : string;
    bar_linewidth : option Z }.

(** Lines 725-727 on one bar. *)
Definition highlight (b : Bar) : Bar :=
  {| bar_y := bar_y b; bar_width := bar_width b; bar_color := bar_color b;
     bar_edgecolor := "red"; bar_linewidth := Some 2%Z |}.

(** Line 709: the colour of each bar, blue for a name with Glukosa in it. *)
Definition colors_imp (feature_importance : list ImportanceRow) : list string :=
  map (fun r => if contains "Glukosa" (Fitur r)
                then "#3498db"%string else "#95a5a6"%string)
    feature_importance.

(** Lines 710-711: [barh] draws one bar per row, in the order of the rows,
    with a black edge. *)
Definition barh (feature_importance : list ImportanceRow)
    (color : list string) : list Bar :=
  zip_with (fun r c => mkBar (Fitur r) (Importance r) c "black" None)
    feature_importance color.

(** Line 725: the rows selected by [Fitur == 'Glukosa']. *)
Definition glucose_rows (feature_importance : list ImportanceRow)
    : list ImportanceRow :=
  List.filter (fun r => String.eqb (Fitur r) "Glukosa") feature_importance.

Section FeatureImportance.
(** [sort_values('Importance', ascending=True)]: the rows reordered, each
    keeping its label. *)
Variable sort_values : list ImportanceRow -> list ImportanceRow.

(** The body of the [try] block, for a classifier that has
    [feature_importances_]: the bars drawn, bottom to top.  [glucose_idx]
    is the index label of the row of Glukosa; [bars2[glucose_idx]] is the
    bar at that position. *)
Definition feature_importance_try (importances : list Q) : result (list Bar) :=
  frame ← importance_frame importances;
  let feature_importance := sort_values frame in
  let bars2 := barh feature_importance (colors_imp feature_importance) in
  if existsb (fun r => String.eqb (Fitur r) "Glukosa") feature_importance
  then
    glucose_idx ← getitem (map row_label (glucose_rows feature_importance)) 0;
    bar ← getitem bars2 glucose_idx;
    mret (<[glucose_idx := highlight bar]> bars2)
  else mret bars2.

(** Lines 695-739.  [feature_importances_] is [None] for a classifier
    without the attribute; whatever is raised is dropped by the bare
    [except] and no chart is shown. *)
Definition feature_importance_chart (feature_importances_ : option (list Q))
    : option (list Bar) :=
  match feature_importances_ with
  | None => None
  | Some importances =>
      match feature_importance_try importances with
      | Ok bars2 => Some bars2
      | Raise _ => None
      end
  end.
End FeatureImportance.

(** The order of the rows by importance. *)
Definition importance_le (r1 r2 : ImportanceRow) : Prop :=
  (Importance r1 <= Importance r2)%Q.

#[global] Instance importance_le_dec : RelDecision importance_le.
Proof.
  intros r1 r2. unfold importance_le.
  destruct (Qlt_le_dec (Importance r2) (Importance r1)) as [H|H].
  - right. by apply Qlt_not_le.
  - by left.
Defined.

(** What pandas promises of [sort_values]: the same rows, in ascending
    order of importance. *)
Definition sorts_by_importance
    (sort_values : list ImportanceRow -> list ImportanceRow) : Prop :=
  forall frame,
    sort_values frame ≡ₚ frame /\ Sorted importance_le (sort_values frame).

(** A label of the chart written on one line: each line break a space. *)
Fixpoint one_line (s : string) : string :=
  match s with
  | EmptyString => EmptyString
  | String c s' =>
      String (if Ascii.eqb c "010"%char then " "%char else c) (one_line s')
  end.

(** * Proofs *)

(** ** Comparisons *)

Lemma Qltb_lt (x y : Q) : Qltb x y = true <-> (x < y)%Q.
Proof.
  unfold Qltb. rewrite negb_true_iff. split.
  - intros H. apply Qnot_le_lt. intros Hle.
    apply Qle_bool_iff in Hle. congruence.
  - intros H. destruct (Qle_bool y x) eqn:E; [|reflexivity].
    apply Qle_bool_iff in E. exfalso. exact (Qlt_not_le _ _ H E).
Qed.

Lemma Qltb_ge (x y : Q) : Qltb x y = false <-> (y <= x)%Q.
Proof.
  unfold Qltb. rewrite negb_false_iff. apply Qle_bool_iff.
Qed.

(** Decide the comparisons of a chain of [if]s from the bounds at hand. *)
Ltac band :=
  repeat match goal with
    | |- context [Qltb ?x ?y] =>
        first
          [ rewrite (proj2 (Qltb_lt x y)) by (unfold Qlt, Qle in *; simpl in *; lia)
          | rewrite (proj2 (Qltb_ge x y)) by (unfold Qlt, Qle in *; simpl in *; lia) ]
    end.

(** ** The five-band glucose categorizer *)

Section Analyze.
Variable g : Q.

Lemma analyze_normal_fasting :
  (g < 100)%Q ->
  analyze_glucose_level g = ("Normal (Puasa)", "green", "Rendah")%string.
Proof. intros H. unfold analyze_glucose_level. band. reflexivity. Qed.

Lemma analyze_prediabetes_fasting :
  (100 <= g)%Q -> (g < 126)%Q ->
  analyze_glucose_level g = ("Prediabetes (Puasa)", "orange", "Sedang")%string.
Proof. intros H1 H2. unfold analyze_glucose_level. band. reflexivity. Qed.

Lemma analyze_diabetes_fasting :
  (126 <= g)%Q -> (g < 140)%Q ->
  analyze_glucose_level g = ("Diabetes (Puasa)", "red", "Tinggi")%string.
Proof. intros H1 H2. unfold analyze_glucose_level. band. reflexivity. Qed.

Lemma analyze_prediabetes_2h :
  (140 <= g)%Q -> (g < 200)%Q ->
  analyze_glucose_level g = ("Prediabetes (2 jam)", "orange", "Sedang")%string.
Proof. intros H1 H2. unfold analyze_glucose_level. band. reflexivity. Qed.

Lemma analyze_diabetes_2h :
  (200 <= g)%Q ->
  analyze_glucose_level g = ("Diabetes (2 jam)", "red", "Tinggi")%string.
Proof. intros H. unfold analyze_glucose_level. band. reflexivity. Qed.
End Analyze.

(** C1.  For every number g the categorizer answers by the first band
    that holds g: below 100 Normal (Puasa) with risk Rendah; from 100 and
    below 126 Prediabetes (Puasa) with risk Sedang; from 126 and below 140
    Diabetes (Puasa) with risk Tinggi; from 140 and below 200 Prediabetes
    (2 jam) with risk Sedang; from 200 on Diabetes (2 jam) with risk
    Tinggi.  At the boundary, 199.999 is Prediabetes (2 jam) and 200 is
    Diabetes (2 jam). *)
Theorem analyze_glucose_level_five_bands (g : Q) :
  ((g < 100)%Q ->
     analyze_glucose_level g = ("Normal (Puasa)", "green", "Rendah")%string) /\
  ((100 <= g)%Q /\ (g < 126)%Q ->
     analyze_glucose_level g = ("Prediabetes (Puasa)", "orange", "Sedang")%string) /\
  ((126 <= g)%Q /\ (g < 140)%Q ->
     analyze_glucose_level g = ("Diabetes (Puasa)", "red", "Tinggi")%string) /\
  ((140 <= g)%Q /\ (g < 200)%Q ->
     analyze_glucose_level g = ("Prediabetes (2 jam)", "orange", "Sedang")%string) /\
  ((200 <= g)%Q ->
     analyze_glucose_level g = ("Diabetes (2 jam)", "red", "Tinggi")%string) /\
  analyze_glucose_level 199.999 = ("Prediabetes (2 jam)", "orange", "Sedang")%string /\
  analyze_glucose_level 200 = ("Diabetes (2 jam)", "red", "Tinggi")%string.
Proof.
  repeat split.
  - apply analyze_normal_fasting.
  - intros [H1 H2]. by apply analyze_prediabetes_fasting.
  - intros [H1 H2]. by apply analyze_diabetes_fasting.
  - intros [H1 H2]. by apply analyze_prediabetes_2h.
  - apply analyze_diabetes_2h.
Qed.

Lemma analyze_glucose_level_five_bands_witness :
  analyze_glucose_level 72.5 = ("Normal (Puasa)", "green", "Rendah")%string /\
  analyze_glucose_level 100 = ("Prediabetes (Puasa)", "orange", "Sedang")%string /\
  analyze_glucose_level 126 = ("Diabetes (Puasa)", "red", "Tinggi")%string /\
  analyze_glucose_level 140 = ("Prediabetes (2 jam)", "orange", "Sedang")%string /\
  analyze_glucose_level 400 = ("Diabetes (2 jam)", "red", "Tinggi")%string.
Proof.
  split; [|split; [|split; [|split]]].
  - apply (proj1 (analyze_glucose_level_five_bands 72.5)). reflexivity.
  - apply (proj1 (proj2 (analyze_glucose_level_five_bands 100))).
    split; [discriminate | reflexivity].
  - apply (proj1 (proj2 (proj2 (analyze_glucose_level_five_bands 126)))).
    split; [discriminate | reflexivity].
  - apply (proj1 (proj2 (proj2 (proj2 (analyze_glucose_level_five_bands 140))))).
    split; [discriminate | reflexivity].
  - apply (proj1 (proj2 (proj2 (proj2 (proj2 (analyze_glucose_level_five_bands 400)))))).
    discriminate.
Defined.

(** ** The three-band sidebar feedback *)

Lemma sidebar_normal (g : Z) :
  (g < 140)%Z -> sidebar_glucose_status g = ("🟢 Normal", "glukosa-normal")%string.
Proof.
  intros H. unfold sidebar_glucose_status.
  by rewrite (proj2 (Z.ltb_lt g 140) H).
Qed.

Lemma sidebar_prediabetes (g : Z) :
  (140 <= g < 200)%Z ->
  sidebar_glucose_status g = ("🟡 Prediabetes", "glukosa-prediabetes")%string.
Proof.
  intros [H1 H2]. unfold sidebar_glucose_status.
  rewrite (proj2 (Z.ltb_ge g 140) H1).
  by rewrite (proj2 (Z.ltb_lt g 200) H2).
Qed.

Lemma sidebar_diabetes (g : Z) :
  (200 <= g)%Z -> sidebar_glucose_status g = ("🔴 Diabetes", "glukosa-diabetes")%string.
Proof.
  intros H. unfold sidebar_glucose_status.
  rewrite (proj2 (Z.ltb_ge g 140)) by lia.
  by rewrite (proj2 (Z.ltb_ge g 200) H).
Qed.

(** C5.  The sidebar feedback is a three-band classification on the
    2-hour thresholds alone: below 140 Normal, from 140 and below 200
    Prediabetes, from 200 on Diabetes.  It is not the five-band one: for
    every g from 126 and below 140 the sidebar says Normal while the
    categorizer says Diabetes (Puasa), so the two names differ. *)
Theorem sidebar_glucose_three_bands (g : Z) :
  ((g < 140)%Z ->
     sidebar_glucose_status g = ("🟢 Normal", "glukosa-normal")%string) /\
  ((140 <= g < 200)%Z ->
     sidebar_glucose_status g = ("🟡 Prediabetes", "glukosa-prediabetes")%string) /\
  ((200 <= g)%Z ->
     sidebar_glucose_status g = ("🔴 Diabetes", "glukosa-diabetes")%string) /\
  ((126 <= g < 140)%Z ->
     (sidebar_glucose_status g).1 = "🟢 Normal"%string /\
     category_of (analyze_glucose_level (inject_Z g)) = "Diabetes (Puasa)"%string /\
     (sidebar_glucose_status g).1 <>
       category_of (analyze_glucose_level (inject_Z g))).
Proof.
  split; [apply sidebar_normal|].
  split; [apply sidebar_prediabetes|].
  split; [apply sidebar_diabetes|].
  intros [H1 H2].
  rewrite sidebar_normal by lia.
  rewrite (analyze_diabetes_fasting (inject_Z g))
    by (unfold Qle, Qlt; simpl; lia).
  repeat split. discriminate.
Qed.

Lemma sidebar_glucose_three_bands_witness :
  sidebar_glucose_status 120 = ("🟢 Normal", "glukosa-normal")%string /\
  sidebar_glucose_status 199 = ("🟡 Prediabetes", "glukosa-prediabetes")%string /\
  sidebar_glucose_status 200 = ("🔴 Diabetes", "glukosa-diabetes")%string /\
  (sidebar_glucose_status 130).1 <>
    category_of (analyze_glucose_level (inject_Z 130)).
Proof.
  split; [|split; [|split]].
  - apply (proj1 (sidebar_glucose_three_bands 120)). reflexivity.
  - apply (proj1 (proj2 (sidebar_glucose_three_bands 199))).
    split; [discriminate | reflexivity].
  - apply (proj1 (proj2 (proj2 (sidebar_glucose_three_bands 200)))).
    discriminate.
  - apply (proj2 (proj2 (proj2 (sidebar_glucose_three_bands 130)))).
    split; [discriminate | reflexivity].
Defined.

(** ** The prediction adapter *)

Ltac unfold_try :=
  unfold make_prediction_try, getitem, mbind, result_bind, mret, result_ret in *.

Lemma make_prediction_try_Ok model scaler input_df p0 pr0 :
  make_prediction_try model scaler input_df = Ok (p0, pr0) <->
  exists input_scaled labels rows,
    transform scaler (values input_df) = Ok input_scaled /\
    predict model input_scaled = Ok labels /\
    predict_proba model input_scaled = Ok rows /\
    labels !! 0 = Some p0 /\ rows !! 0 = Some pr0.
Proof.
  unfold_try. split.
  - destruct (transform scaler (values input_df)) as [X|] eqn:EX; [|discriminate].
    destruct (predict model X) as [labels|] eqn:EL; [|discriminate].
    destruct (predict_proba model X) as [rows|] eqn:ER; [|discriminate].
    destruct labels as [|l labels]; [discriminate|].
    destruct rows as [|r rows]; [discriminate|].
    intros [= -> ->]. by exists X, (p0 :: labels), (pr0 :: rows).
  - intros (X & labels & rows & -> & -> & -> & -> & ->). reflexivity.
Qed.

Lemma make_prediction_try_Raise model scaler input_df msg :
  make_prediction_try model scaler input_df = Raise msg ->
  (exists m, transform scaler (values input_df) = Raise m) \/
  exists input_scaled,
    transform scaler (values input_df) = Ok input_scaled /\
    ((exists m, predict model input_scaled = Raise m) \/
     (exists m, predict_proba model input_scaled = Raise m) \/
     predict model input_scaled = Ok [] \/
     predict_proba model input_scaled = Ok []).
Proof.
  unfold_try.
  destruct (transform scaler (values input_df)) as [X|m] eqn:EX; [|by eauto].
  intros H. right. exists X. split; [reflexivity|].
  destruct (predict model X) as [labels|m] eqn:EL; [|by eauto].
  destruct (predict_proba model X) as [rows|m] eqn:ER; [|by eauto].
  destruct labels as [|l labels]; [by eauto|].
  destruct rows as [|r rows]; [by eauto 6|].
  discriminate.
Qed.

Lemma make_prediction_Some model scaler input_df p0 pr0 :
  make_prediction model scaler input_df = (Some p0, Some pr0) <->
  make_prediction_try model scaler input_df = Ok (p0, pr0).
Proof.
  unfold make_prediction.
  destruct (make_prediction_try model scaler input_df) as [[p pr]|m].
  - split; intros [= -> ->]; reflexivity.
  - split; discriminate.
Qed.

Lemma make_prediction_None model scaler input_df probs :
  make_prediction model scaler input_df = (None, probs) <->
  probs = None /\ exists msg, make_prediction_try model scaler input_df = Raise msg.
Proof.
  unfold make_prediction.
  destruct (make_prediction_try model scaler input_df) as [[p pr]|m].
  - split; [discriminate | intros [_ [msg H]]; discriminate].
  - split; [intros [= <-]; eauto | intros [-> _]; reflexivity].
Qed.

(** The first component decides the second: testing
    [prediction is not None] is testing both. *)
Lemma make_prediction_both model scaler input_df :
  (exists p0 pr0, make_prediction model scaler input_df = (Some p0, Some pr0)) \/
  make_prediction model scaler input_df = (None, None).
Proof.
  unfold make_prediction.
  destruct (make_prediction_try model scaler input_df) as [[p pr]|m]; eauto.
Qed.

(** The answer depends on the classifier only through what it says on the
    scaled array. *)
Lemma make_prediction_model_ext model model' scaler input_df :
  (forall input_scaled,
     transform scaler (values input_df) = Ok input_scaled ->
     predict model' input_scaled = predict model input_scaled /\
     predict_proba model' input_scaled = predict_proba model input_scaled) ->
  make_prediction model' scaler input_df = make_prediction model scaler input_df.
Proof.
  intros H. unfold make_prediction. unfold_try.
  destruct (transform scaler (values input_df)) as [X|m]; [|reflexivity].
  destruct (H X eq_refl) as [-> ->]. reflexivity.
Qed.

Lemma values_inj (input_df input_df' : PatientInput) :
  values input_df = values input_df' -> input_df = input_df'.
Proof.
  destruct input_df, input_df'. unfold values; simpl.
  intros H. injection H as H1 H2 H3 H4 H5 H6 H7 H8.
  by subst.
Qed.

(** C4.  The prediction encodes the eight fields in the order
    Pregnancies, Glucose, BloodPressure, SkinThickness, Insulin, BMI,
    DiabetesPedigree, Age, for the record built from the sliders each
    slider at the position of its field, and the encoding loses nothing;
    the scaler's transform is applied to that array; the classifier's
    label and probabilities are computed on the scaled array and never on
    the raw one.  A prediction is returned exactly when the transform
    answers and the classifier answers a label and a row of probabilities
    on the scaled array, and it is that label and that row; when the
    transform raises there is no prediction whatever the classifier, and
    the result is fixed by what the classifier answers on the scaled
    array. *)
Theorem make_prediction_pipeline (model : Model) (scaler : Scaler)
    (input_df : PatientInput) :
  values input_df =
    [[inject_Z (Pregnancies input_df); inject_Z (Glucose input_df);
      inject_Z (BloodPressure input_df); inject_Z (SkinThickness input_df);
      inject_Z (Insulin input_df); BMI input_df;
      DiabetesPedigreeFunction input_df; inject_Z (Age input_df)]] /\
  (forall ui,
     values (get_user_input ui) =
       [[inject_Z (st_slider pregnancies_slider (pregnancies_input ui));
         inject_Z (st_slider glucose_slider (glucose_input ui));
         inject_Z (st_slider blood_pressure_slider (blood_pressure_input ui));
         inject_Z (st_slider skin_thickness_slider (skin_thickness_input ui));
         inject_Z (st_slider insulin_slider (insulin_input ui));
         st_slider bmi_slider (bmi_input ui);
         st_slider diabetes_pedigree_slider (diabetes_pedigree_input ui);
         inject_Z (st_slider age_slider (age_input ui))]]) /\
  (forall input_df', values input_df' = values input_df -> input_df' = input_df) /\
  (forall label probs,
     make_prediction model scaler input_df = (Some label, Some probs) <->
     exists input_scaled labels rows,
       transform scaler (values input_df) = Ok input_scaled /\
       predict model input_scaled = Ok labels /\
       predict_proba model input_scaled = Ok rows /\
       labels !! 0 = Some label /\ rows !! 0 = Some probs) /\
  (forall msg,
     transform scaler (values input_df) = Raise msg ->
     make_prediction model scaler input_df = (None, None)) /\
  (forall model' input_scaled,
     transform scaler (values input_df) = Ok input_scaled ->
     predict model' input_scaled = predict model input_scaled ->
     predict_proba model' input_scaled = predict_proba model input_scaled ->
     make_prediction model' scaler input_df =
       make_prediction model scaler input_df).
Proof.
  split; [reflexivity|]. split; [reflexivity|].
  split; [intros input_df' H; by apply values_inj|]. split; [|split].
  - intros label probs.
    rewrite make_prediction_Some. apply make_prediction_try_Ok.
  - intros msg H. unfold make_prediction. unfold_try. by rewrite H.
  - intros model' X HX Hp Hpp. apply make_prediction_model_ext.
    intros X' HX'. rewrite HX in HX'. by injection HX' as <-.
Qed.

Lemma make_prediction_pipeline_witness :
  make_prediction stub_model identity_scaler default_input =
    (Some 0%Z, Some [0.8%Q; 0.2%Q]) /\
  make_prediction failing_model identity_scaler default_input = (None, None) /\
  exists input_scaled labels rows,
    transform identity_scaler (values default_input) = Ok input_scaled /\
    predict stub_model input_scaled = Ok labels /\
    predict_proba stub_model input_scaled = Ok rows /\
    labels !! 0 = Some 0%Z /\ rows !! 0 = Some [0.8%Q; 0.2%Q].
Proof.
  assert (make_prediction stub_model identity_scaler default_input =
            (Some 0%Z, Some [0.8%Q; 0.2%Q])) as Hstub.
  { apply (proj1 (proj2 (proj2 (proj2
             (make_prediction_pipeline stub_model identity_scaler
                default_input))))).
    exists (values default_input), [0%Z], [[0.8%Q; 0.2%Q]].
    repeat split. }
  split; [exact Hstub|]. split; [reflexivity|].
  apply (proj1 (proj2 (proj2 (proj2
           (make_prediction_pipeline stub_model identity_scaler
              default_input))))).
  exact Hstub.
Defined.

(** ** Probabilities are handed through *)

Lemma stub_model_distributions_valid : model_distributions_valid stub_model.
Proof.
  intros X rows row [= <-] Hin.
  apply list_elem_of_singleton in Hin as ->.
  split; [reflexivity|]. split.
  - repeat constructor; discriminate.
  - discriminate.
Defined.

(** C8.  The classifier is an artifact made elsewhere whose
    probabilities are, by its interface, distributions over the two
    classes.  For such a classifier every probability distribution a
    successful prediction returns has exactly two non-negative entries
    summing to 1 within 1e-6: it is the first row of the classifier's
    probabilities on the scaled array, handed through unchanged.  And the
    prediction does succeed, with such a distribution, whenever the
    transform answers and the classifier answers a label and a row. *)
Theorem make_prediction_distribution (model : Model) (scaler : Scaler)
    (input_df : PatientInput) :
  model_distributions_valid model ->
  (forall label probs,
     make_prediction model scaler input_df = (Some label, Some probs) ->
     valid_distribution probs /\
     exists input_scaled rows,
       transform scaler (values input_df) = Ok input_scaled /\
       predict_proba model input_scaled = Ok rows /\
       rows !! 0 = Some probs) /\
  (forall input_scaled label labels probs rows,
     transform scaler (values input_df) = Ok input_scaled ->
     predict model input_scaled = Ok (label :: labels) ->
     predict_proba model input_scaled = Ok (probs :: rows) ->
     make_prediction model scaler input_df = (Some label, Some probs) /\
     valid_distribution probs).
Proof.
  intros Hvalid. split.
  - intros label probs H.
    apply make_prediction_Some, make_prediction_try_Ok in H.
    destruct H as (X & labels & rows & HX & _ & HR & _ & H0).
    split; [|by exists X, rows].
    apply (Hvalid X rows probs HR).
    by apply list_elem_of_lookup_2 with 0.
  - intros X label labels probs rows HX HL HR. split.
    + apply make_prediction_Some, make_prediction_try_Ok.
      by exists X, (label :: labels), (probs :: rows).
    + apply (Hvalid X (probs :: rows) probs HR). apply list_elem_of_here.
Qed.

Lemma make_prediction_distribution_witness :
  make_prediction stub_model identity_scaler default_input =
    (Some 0%Z, Some [0.8%Q; 0.2%Q]) /\
  valid_distribution [0.8%Q; 0.2%Q].
Proof.
  apply (proj2 (make_prediction_distribution
                  stub_model identity_scaler default_input
                  stub_model_distributions_valid)
           (values default_input) 0%Z [] [0.8%Q; 0.2%Q] []);
    reflexivity.
Defined.

(** ** Ranges of the input record *)

Lemma get_user_input_fresh : get_user_input fresh_sidebar = default_input.
Proof. reflexivity. Qed.

Lemma fresh_sidebar_in_bounds : sidebar_in_bounds fresh_sidebar.
Proof. repeat split. Defined.

(** A slider inside its bounds when its widget is. *)
Lemma st_slider_within {A} (le : A -> A -> Prop) (s : Slider A) (w : option A) :
  within le s (value s) ->
  from_option (within le s) True w ->
  within le s (st_slider s w).
Proof. intros Hd Hw. destruct w; [exact Hw | exact Hd]. Qed.

Lemma get_user_input_within (ui : Sidebar) :
  sidebar_in_bounds ui ->
  within Z.le pregnancies_slider (Pregnancies (get_user_input ui)) /\
  within Z.le glucose_slider (Glucose (get_user_input ui)) /\
  within Z.le blood_pressure_slider (BloodPressure (get_user_input ui)) /\
  within Z.le skin_thickness_slider (SkinThickness (get_user_input ui)) /\
  within Z.le insulin_slider (Insulin (get_user_input ui)) /\
  within Qle bmi_slider (BMI (get_user_input ui)) /\
  within Qle diabetes_pedigree_slider
    (DiabetesPedigreeFunction (get_user_input ui)) /\
  within Z.le age_slider (Age (get_user_input ui)).
Proof.
  intros (H1 & H2 & H3 & H4 & H5 & H6 & H7 & H8).
  refine (conj _ (conj _ (conj _ (conj _ (conj _ (conj _ (conj _ _)))))));
    (apply st_slider_within;
     [unfold within, Qle; simpl; lia | assumption]).
Qed.

(** C2, as the code has it.  Building the record never fails and checks
    nothing: each field is the value of its slider, so it lies in the
    declared range as long as the slider is within the bounds it was
    declared with.  The prediction checks no range either: it gives no
    result only when the scaler or the classifier raises or answers an
    empty array. *)
Theorem get_user_input_ranges (ui : Sidebar) :
  (sidebar_in_bounds ui -> declared_ranges (get_user_input ui)) /\
  (forall model scaler input_df,
     make_prediction model scaler input_df = (None, None) ->
     (exists m, transform scaler (values input_df) = Raise m) \/
     exists input_scaled,
       transform scaler (values input_df) = Ok input_scaled /\
       ((exists m, predict model input_scaled = Raise m) \/
        (exists m, predict_proba model input_scaled = Raise m) \/
        predict model input_scaled = Ok [] \/
        predict_proba model input_scaled = Ok [])).
Proof.
  split.
  - exact (get_user_input_within ui).
  - intros model scaler input_df H.
    apply make_prediction_None in H as [_ [msg H]].
    by apply make_prediction_try_Raise in H.
Qed.

Lemma get_user_input_ranges_witness : declared_ranges default_input.
Proof.
  exact (proj1 (get_user_input_ranges fresh_sidebar) fresh_sidebar_in_bounds).
Defined.

(** C2, as stated, fails: a record with Glucose 1000 and Age -5 is not
    rejected; the prediction is made and stored. *)
Lemma out_of_range_input_predicted :
  ~ declared_ranges out_of_range_input /\
  make_prediction stub_model identity_scaler out_of_range_input =
    (Some 0%Z, Some [0.8%Q; 0.2%Q]) /\
  length (prediction_history
            (predict_section true stub_disk "2024-01-01 00:00:00"
               out_of_range_input initial_state)) = 1.
Proof.
  split; [|split; reflexivity].
  intros (_ & [_ H] & _). revert H. simpl. lia.
Qed.

(** ** The history: display *)

Section Recent.
Variable history : list HistoryEntry.

Lemma recent_entries_length :
  length (recent_entries history) = min 5 (length history).
Proof.
  unfold recent_entries, slice_last.
  rewrite length_reverse, length_drop. lia.
Qed.

Lemma recent_entries_lookup (i : nat) :
  i < length (recent_entries history) ->
  recent_entries history !! i = history !! (length history - S i).
Proof.
  intros Hi. pose proof recent_entries_length as Hlen.
  unfold recent_entries, slice_last in *.
  rewrite length_reverse in Hi.
  rewrite reverse_lookup by exact Hi.
  rewrite length_drop in *. rewrite lookup_drop. f_equal. lia.
Qed.

Lemma recent_entries_snoc (e : HistoryEntry) :
  recent_entries (history ++ [e]) = e :: take 4 (recent_entries history).
Proof.
  unfold recent_entries, slice_last.
  rewrite length_app; simpl.
  rewrite drop_app_le by lia. rewrite reverse_snoc. f_equal.
  rewrite take_reverse, drop_drop, length_drop.
  f_equal. f_equal. lia.
Qed.
End Recent.

(** What a successful submission stores. *)
Lemma predict_section_success disk now input_df st model scaler p0 pr0 :
  load_models disk = (Some model, Some scaler) ->
  make_prediction model scaler input_df = (Some p0, Some pr0) ->
  let entry :=
    {| data := input_df; prediction := p0; probabilities := pr0;
       timestamp := now; glucose := Glucose input_df;
       glucose_category :=
         category_of (analyze_glucose_level (inject_Z (Glucose input_df))) |} in
  predict_section true disk now input_df st =
    {| prediction_history := prediction_history st ++ [entry];
       current_prediction := Some entry |}.
Proof.
  intros HL HP. unfold predict_section. rewrite HL, HP. reflexivity.
Qed.

(** C6.  The display shows at most the last 5 entries of the history,
    most recent first: position i of the display is position
    [length - 1 - i] of the history.  After an append the first entry
    shown is the one just appended.  A successful submission extends the
    history by exactly one entry at its end and drops none, however long
    the history already is: the cap of 5 is in the display only. *)
Theorem recent_entries_last_five (history : list HistoryEntry) :
  length (recent_entries history) = min 5 (length history) /\
  (forall i, i < length (recent_entries history) ->
     recent_entries history !! i = history !! (length history - S i)) /\
  (forall e, head (recent_entries (history ++ [e])) = Some e) /\
  (forall disk now input_df st model scaler p0 pr0,
     prediction_history st = history ->
     load_models disk = (Some model, Some scaler) ->
     make_prediction model scaler input_df = (Some p0, Some pr0) ->
     exists e,
       prediction_history (predict_section true disk now input_df st) =
         history ++ [e] /\
       head (recent_entries
               (prediction_history (predict_section true disk now input_df st))) =
         Some e /\
       data e = input_df /\ prediction e = p0 /\ probabilities e = pr0 /\
       timestamp e = now).
Proof.
  split; [apply recent_entries_length|].
  split; [apply recent_entries_lookup|].
  split; [intros e; by rewrite recent_entries_snoc|].
  intros disk now input_df st model scaler p0 pr0 <- HL HP.
  rewrite (predict_section_success _ _ _ _ _ _ _ _ HL HP). simpl.
  eexists. split; [reflexivity|].
  rewrite recent_entries_snoc. by repeat split.
Qed.

Lemma recent_entries_last_five_witness :
  length (recent_entries sample_history) = 5 /\
  recent_entries sample_history !! 0 = Some (sample_entry 95) /\
  head (recent_entries (sample_history ++ [sample_entry 120])) =
    Some (sample_entry 120) /\
  exists e,
    prediction_history
      (predict_section true stub_disk "2024-01-02 08:30:00" default_input
         {| prediction_history := sample_history;
            current_prediction := None |}) = sample_history ++ [e] /\
    head (recent_entries
            (prediction_history
               (predict_section true stub_disk "2024-01-02 08:30:00"
                  default_input
                  {| prediction_history := sample_history;
                     current_prediction := None |}))) = Some e /\
    data e = default_input /\ prediction e = 0%Z /\
    probabilities e = [0.8%Q; 0.2%Q] /\
    timestamp e = "2024-01-02 08:30:00"%string.
Proof.
  split; [|split; [|split]].
  - exact (proj1 (recent_entries_last_five sample_history)).
  - refine (proj1 (proj2 (recent_entries_last_five sample_history)) 0 _).
    simpl. lia.
  - exact (proj1 (proj2 (proj2 (recent_entries_last_five sample_history)))
             (sample_entry 120)).
  - exact (proj2 (proj2 (proj2 (recent_entries_last_five sample_history)))
             stub_disk "2024-01-02 08:30:00"%string default_input
             {| prediction_history := sample_history;
                current_prediction := None |}
             stub_model identity_scaler 0%Z [0.8%Q; 0.2%Q]
             eq_refl eq_refl eq_refl).
Defined.

(** ** The history: clear *)

Lemma clear_section_history (clear_button : bool) (st : SessionState) :
  prediction_history (clear_section clear_button st).1 =
    if clear_button then [] else prediction_history st.
Proof.
  unfold clear_section.
  destruct (prediction_history st) eqn:E, clear_button; simpl; by rewrite ?E.
Qed.

Lemma clear_section_rerun (clear_button : bool) (st : SessionState) :
  (clear_section clear_button st).2 = true ->
  prediction_history (clear_section clear_button st).1 = [].
Proof.
  unfold clear_section.
  destruct (prediction_history st), clear_button; simpl; by try discriminate.
Qed.

Lemma predict_section_off disk now input_df st :
  predict_section false disk now input_df st = st.
Proof. reflexivity. Qed.

(** A second pass with no button pressed changes nothing. *)
Lemma script_pass_idle ui disk now st :
  script_pass ui false false disk now st = (st, false).
Proof.
  unfold script_pass, clear_section.
  by destruct (prediction_history st).
Qed.

(** C7.  Clear empties the history whatever it holds: after the clear
    button's code has run the history has no entry, the 5 most recent are
    none, and nothing is drawn; the same after the whole interaction. *)
Theorem clear_empties_history (st : SessionState) :
  prediction_history (clear_section true st).1 = [] /\
  recent_entries (prediction_history (clear_section true st).1) = [] /\
  (forall ui disk now,
     prediction_history (run_script ui false true disk now st) = [] /\
     recent_entries
       (prediction_history (run_script ui false true disk now st)) = [] /\
     history_section (run_script ui false true disk now st) = []).
Proof.
  pose proof (clear_section_history true st) as Hc. simpl in Hc.
  split; [exact Hc|]. split; [by rewrite Hc|].
  intros ui disk now.
  assert (prediction_history (run_script ui false true disk now st) = [])
    as Hrun.
  { unfold run_script.
    destruct (script_pass ui false true disk now st) as [st1 r] eqn:E.
    unfold script_pass in E.
    destruct (clear_section true st) as [st2 [|]];
      simpl in *; injection E as <- <-.
    - by rewrite script_pass_idle.
    - exact Hc. }
  unfold history_section. rewrite Hrun. by repeat split.
Qed.

(** ** Failed submissions *)

Lemma clear_section_off (st : SessionState) :
  clear_section false st = (st, false).
Proof. unfold clear_section. by destruct (prediction_history st). Qed.

Lemma run_script_predict ui predict_button disk now st :
  run_script ui predict_button false disk now st =
    predict_section predict_button disk now (get_user_input ui) st.
Proof.
  unfold run_script, script_pass. by rewrite clear_section_off.
Qed.

Lemma load_models_Some disk model scaler :
  load_models disk = (Some model, Some scaler) <->
  best_diabetes_model_pkl disk = Some model /\ scaler_pkl disk = Some scaler.
Proof.
  unfold load_models.
  destruct (best_diabetes_model_pkl disk), (scaler_pkl disk); split;
    try discriminate;
    solve [ intros [= -> ->]; by split
          | intros [[= ->] [= ->]]; reflexivity
          | intros [H1 H2]; discriminate ].
Qed.

(** C9.  When the model or the scaler does not load, or the prediction
    raises, the submission stores nothing: the session state after it,
    history and current prediction, is the state before it. *)
Theorem failed_submission_keeps_state (disk : Disk) (now : string)
    (input_df : PatientInput) (st : SessionState) :
  best_diabetes_model_pkl disk = None \/
  scaler_pkl disk = None \/
  (exists model scaler msg,
     load_models disk = (Some model, Some scaler) /\
     make_prediction_try model scaler input_df = Raise msg) ->
  predict_section true disk now input_df st = st /\
  (forall ui, get_user_input ui = input_df ->
     run_script ui true false disk now st = st).
Proof.
  intros H.
  assert (predict_section true disk now input_df st = st) as Hp.
  { unfold predict_section.
    destruct H as [H | [H | (model & scaler & msg & HL & HR)]].
    - unfold load_models. by rewrite H.
    - unfold load_models. rewrite H.
      by destruct (best_diabetes_model_pkl disk).
    - rewrite HL. unfold make_prediction. by rewrite HR. }
  split; [exact Hp|].
  intros ui <-. by rewrite run_script_predict.
Qed.

Lemma failed_submission_keeps_state_witness :
  (predict_section true disk_without_model "2024-01-02 08:30:00"
     default_input initial_state = initial_state /\
   forall ui, get_user_input ui = default_input ->
     run_script ui true false disk_without_model "2024-01-02 08:30:00"
       initial_state = initial_state) /\
  (predict_section true disk_failing_model "2024-01-02 08:30:00"
     default_input
     {| prediction_history := sample_history; current_prediction := None |} =
     {| prediction_history := sample_history; current_prediction := None |} /\
   forall ui, get_user_input ui = default_input ->
     run_script ui true false disk_failing_model "2024-01-02 08:30:00"
       {| prediction_history := sample_history; current_prediction := None |} =
       {| prediction_history := sample_history; current_prediction := None |}).
Proof.
  split.
  - apply (failed_submission_keeps_state disk_without_model).
    left. reflexivity.
  - apply (failed_submission_keeps_state disk_failing_model).
    right. right. exists failing_model, identity_scaler, "ValueError"%string.
    split; reflexivity.
Defined.

(** ** Stored entries agree with their input *)

Lemma predict_section_consistent predict_button disk now input_df st :
  Forall entry_consistent (prediction_history st) ->
  Forall entry_consistent
    (prediction_history (predict_section predict_button disk now input_df st)).
Proof.
  intros Hst. unfold predict_section.
  destruct predict_button; [|exact Hst].
  destruct (load_models disk) as [[model|] [scaler|]]; try exact Hst.
  destruct (make_prediction model scaler input_df) as [[p0|] [pr0|]];
    try exact Hst.
  simpl. apply Forall_app. split; [exact Hst|].
  apply Forall_singleton. split; reflexivity.
Qed.

Lemma clear_section_consistent clear_button st :
  Forall entry_consistent (prediction_history st) ->
  Forall entry_consistent (prediction_history (clear_section clear_button st).1).
Proof.
  intros Hst. rewrite clear_section_history.
  destruct clear_button; [constructor | exact Hst].
Qed.

Lemma run_script_consistent ui predict_button clear_button disk now st :
  Forall entry_consistent (prediction_history st) ->
  Forall entry_consistent
    (prediction_history (run_script ui predict_button clear_button disk now st)).
Proof.
  intros Hst. unfold run_script.
  destruct (script_pass ui predict_button clear_button disk now st)
    as [st1 r] eqn:E.
  unfold script_pass in E.
  pose proof (clear_section_consistent clear_button st Hst) as Hc.
  destruct (clear_section clear_button st) as [st2 [|]];
    simpl in *; injection E as <- <-.
  - by rewrite script_pass_idle.
  - by apply predict_section_consistent.
Qed.

(** C10.  Every interaction keeps the history consistent, so in every
    state a session can reach each entry of the history stores the glucose
    value of its own input snapshot and the category the five-band
    categorizer gives that value. *)
Theorem history_entries_consistent :
  (forall ui predict_button clear_button disk now st,
     Forall entry_consistent (prediction_history st) ->
     Forall entry_consistent
       (prediction_history
          (run_script ui predict_button clear_button disk now st))) /\
  (forall st, reachable st ->
     Forall entry_consistent (prediction_history st)).
Proof.
  split; [apply run_script_consistent|].
  intros st Hreach.
  induction Hreach as [|ui pb cb disk now st _ IH].
  - constructor.
  - by apply run_script_consistent.
Qed.

Lemma history_entries_consistent_witness :
  Forall entry_consistent
    (prediction_history
       (run_script fresh_sidebar true false stub_disk "2024-01-02 08:30:00"
          initial_state)).
Proof.
  apply (proj2 history_entries_consistent).
  apply reachable_step, reachable_init.
Defined.

(** ** End to end *)

(** C3, as the code has it.  The default input, through a classifier
    answering label 0 and probabilities [0.8, 0.2], stores an entry with
    category Prediabetes (Puasa), for which the categorizer's risk is
    Sedang; the label is 0, shown as Non-Diabetes, and the probabilities
    are exactly [0.8, 0.2].  Glucose 120 lies from 100 and below 126. *)
Theorem end_to_end_default_input (now : string) (st : SessionState) :
  get_user_input fresh_sidebar = default_input /\
  exists e,
    prediction_history (predict_section true stub_disk now default_input st) =
      prediction_history st ++ [e] /\
    current_prediction (predict_section true stub_disk now default_input st) =
      Some e /\
    data e = default_input /\
    glucose e = 120%Z /\
    glucose_category e = "Prediabetes (Puasa)"%string /\
    risk_of (analyze_glucose_level (inject_Z (glucose e))) = "Sedang"%string /\
    prediction e = 0%Z /\
    status_text e = "Non-Diabetes ✅"%string /\
    probabilities e = [0.8%Q; 0.2%Q] /\
    timestamp e = now.
Proof.
  split; [reflexivity|].
  eexists. split; [reflexivity|]. by repeat split.
Qed.

(** C3, as stated, fails: the entry stored for the default input is not
    of category Normal (2 jam) with risk Rendah. *)
Lemma end_to_end_not_normal :
  ~ exists e,
      last (prediction_history
              (predict_section true stub_disk "2024-01-02 08:30:00"
                 default_input initial_state)) = Some e /\
      glucose_category e = "Normal (2 jam)"%string /\
      risk_of (analyze_glucose_level (inject_Z (glucose e))) = "Rendah"%string /\
      prediction e = 0%Z /\
      probabilities e = [0.8%Q; 0.2%Q].
Proof.
  intros (e & He & Hcat & _). simpl in He.
  injection He as <-. discriminate Hcat.
Qed.

(** * Further properties *)

(** ** BMI caption *)

(** X1.  The BMI caption has four bands: below 18.5 Kurus, from 18.5 and
    below 25 Normal, from 25 and below 30 Gemuk, from 30 on Obesitas. *)
Theorem sidebar_bmi_status_four_bands (bmi : Q) :
  ((bmi < 18.5)%Q -> sidebar_bmi_status bmi = "⚪ Kurus"%string) /\
  ((18.5 <= bmi)%Q /\ (bmi < 25)%Q ->
     sidebar_bmi_status bmi = "🟢 Normal"%string) /\
  ((25 <= bmi)%Q /\ (bmi < 30)%Q ->
     sidebar_bmi_status bmi = "🟡 Gemuk"%string) /\
  ((30 <= bmi)%Q -> sidebar_bmi_status bmi = "🔴 Obesitas"%string).
Proof.
  unfold sidebar_bmi_status.
  split; [|split; [|split]].
  - intros H. band. reflexivity.
  - intros [H1 H2]. band. reflexivity.
  - intros [H1 H2]. band. reflexivity.
  - intros H. band. reflexivity.
Qed.

Lemma sidebar_bmi_status_four_bands_witness :
  sidebar_bmi_status 18.4 = "⚪ Kurus"%string /\
  sidebar_bmi_status 18.5 = "🟢 Normal"%string /\
  sidebar_bmi_status 24.9 = "🟢 Normal"%string /\
  sidebar_bmi_status 25.0 = "🟡 Gemuk"%string /\
  sidebar_bmi_status 30 = "🔴 Obesitas"%string.
Proof.
  split; [|split; [|split; [|split]]].
  - apply (proj1 (sidebar_bmi_status_four_bands 18.4)). reflexivity.
  - apply (proj1 (proj2 (sidebar_bmi_status_four_bands 18.5))).
    split; [discriminate | reflexivity].
  - apply (proj1 (proj2 (sidebar_bmi_status_four_bands 24.9))).
    split; [discriminate | reflexivity].
  - apply (proj1 (proj2 (proj2 (sidebar_bmi_status_four_bands 25.0)))).
    split; [discriminate | reflexivity].
  - apply (proj2 (proj2 (proj2 (sidebar_bmi_status_four_bands 30)))).
    discriminate.
Defined.

(** ** The result page against the sidebar *)

(** Decide the integer comparisons of a chain of [if]s from the bounds at
    hand. *)
Ltac zband :=
  repeat match goal with
    | |- context [(?x >=? ?y)%Z] => rewrite (Z.geb_leb x y)
    | |- context [(?x <? ?y)%Z] =>
        first [ rewrite (proj2 (Z.ltb_lt x y)) by lia
              | rewrite (proj2 (Z.ltb_ge x y)) by lia ]
    | |- context [(?x <=? ?y)%Z] =>
        first [ rewrite (proj2 (Z.leb_le x y)) by lia
              | rewrite (proj2 (Z.leb_gt x y)) by lia ]
    end.

(** X2.  The verdict and the recommendations of the result page, which
    compare downwards from 200, pick the band the sidebar feedback picks
    comparing upwards from 140, for every glucose value. *)
Theorem result_page_agrees_with_sidebar (g : Z) :
  ((g < 140)%Z ->
     (sidebar_glucose_status g).1 = "🟢 Normal"%string /\
     glucose_verdict g = ("success", "**Nilai Normal**")%string /\
     recommendation_heading g =
       "### 🟢 **Rekomendasi untuk Nilai Normal (< 140 mg/dL):**"%string) /\
  ((140 <= g < 200)%Z ->
     (sidebar_glucose_status g).1 = "🟡 Prediabetes"%string /\
     glucose_verdict g = ("warning", "**Nilai Prediabetes**")%string /\
     recommendation_heading g =
       "### 🟡 **Rekomendasi untuk Nilai Prediabetes (140-199 mg/dL):**"%string) /\
  ((200 <= g)%Z ->
     (sidebar_glucose_status g).1 = "🔴 Diabetes"%string /\
     glucose_verdict g = ("error", "**Nilai Diabetes**")%string /\
     recommendation_heading g =
       "### 🏥 **Rekomendasi untuk Nilai Diabetes (≥ 200 mg/dL):**"%string).
Proof.
  unfold sidebar_glucose_status, glucose_verdict, recommendation_heading.
  split; [|split]; intros H; zband; by repeat split.
Qed.

Lemma result_page_agrees_with_sidebar_witness :
  glucose_verdict 139 = ("success", "**Nilai Normal**")%string /\
  glucose_verdict 140 = ("warning", "**Nilai Prediabetes**")%string /\
  glucose_verdict 200 = ("error", "**Nilai Diabetes**")%string.
Proof.
  split; [|split].
  - apply (proj1 (result_page_agrees_with_sidebar 139)). reflexivity.
  - apply (proj1 (proj2 (result_page_agrees_with_sidebar 140))).
    split; [discriminate | reflexivity].
  - apply (proj2 (proj2 (result_page_agrees_with_sidebar 200))).
    discriminate.
Defined.

(** X3.  The two high-glucose warnings are shown together, and exactly
    when the categorizer says Diabetes (2 jam), which is exactly when the
    sidebar feedback says Diabetes. *)
Theorem glucose_warnings_iff_diabetes_2h (g : Z) :
  sidebar_glucose_warning g = critical_glucose_warning g /\
  (sidebar_glucose_warning g = true <->
     category_of (analyze_glucose_level (inject_Z g)) = "Diabetes (2 jam)"%string) /\
  (sidebar_glucose_warning g = true <->
     (sidebar_glucose_status g).1 = "🔴 Diabetes"%string).
Proof.
  split; [reflexivity|].
  unfold sidebar_glucose_warning, sidebar_glucose_status, analyze_glucose_level.
  destruct (Z.lt_ge_cases g 200) as [Hlt|Hge].
  - assert ((g >=? 200)%Z = false) as -> by (rewrite Z.geb_leb; lia).
    split; (split; [discriminate|]).
    + destruct (Z.lt_ge_cases g 100); [band; discriminate|].
      destruct (Z.lt_ge_cases g 126); [band; discriminate|].
      destruct (Z.lt_ge_cases g 140); band; discriminate.
    + destruct (Z.lt_ge_cases g 140); zband; discriminate.
  - assert ((g >=? 200)%Z = true) as -> by (rewrite Z.geb_leb; lia).
    split; (split; [intros _|reflexivity]).
    + band. reflexivity.
    + zband. reflexivity.
Qed.

(** ** The interpretation block *)

(** X4.  The interpretation ticks exactly one line of each group, for
    every glucose value: of the fasting lines the one by the thresholds
    100 and 126, which below 126 is the band of the categorizer; of the
    2-hour lines the one by 140 and 200, which is the band of the sidebar
    feedback. *)
Theorem glucose_interpretation_one_tick (g : Z) :
  ((g < 100)%Z ->
     (glucose_interpretation g).1 = ["✅"; "⚠️"; "⚠️"]%string /\
     category_of (analyze_glucose_level (inject_Z g)) = "Normal (Puasa)"%string) /\
  ((100 <= g < 126)%Z ->
     (glucose_interpretation g).1 = ["⚠️"; "✅"; "⚠️"]%string /\
     category_of (analyze_glucose_level (inject_Z g)) =
       "Prediabetes (Puasa)"%string) /\
  ((126 <= g)%Z ->
     (glucose_interpretation g).1 = ["⚠️"; "⚠️"; "✅"]%string) /\
  ((g < 140)%Z ->
     (glucose_interpretation g).2 = ["✅"; "⚠️"; "⚠️"]%string /\
     (sidebar_glucose_status g).1 = "🟢 Normal"%string) /\
  ((140 <= g < 200)%Z ->
     (glucose_interpretation g).2 = ["⚠️"; "✅"; "⚠️"]%string /\
     (sidebar_glucose_status g).1 = "🟡 Prediabetes"%string) /\
  ((200 <= g)%Z ->
     (glucose_interpretation g).2 = ["⚠️"; "⚠️"; "✅"]%string /\
     (sidebar_glucose_status g).1 = "🔴 Diabetes"%string).
Proof.
  unfold glucose_interpretation, sidebar_glucose_status, analyze_glucose_level.
  repeat apply conj; intros H; simpl; zband; band; by repeat split.
Qed.

Lemma glucose_interpretation_one_tick_witness :
  (glucose_interpretation 120).1 = ["⚠️"; "✅"; "⚠️"]%string /\
  (glucose_interpretation 120).2 = ["✅"; "⚠️"; "⚠️"]%string /\
  (glucose_interpretation 150).1 = ["⚠️"; "⚠️"; "✅"]%string /\
  (glucose_interpretation 150).2 = ["⚠️"; "✅"; "⚠️"]%string.
Proof.
  split; [|split; [|split]].
  - apply (proj1 (proj2 (glucose_interpretation_one_tick 120))).
    split; [discriminate | reflexivity].
  - apply (proj1 (proj2 (proj2 (proj2 (glucose_interpretation_one_tick 120))))).
    reflexivity.
  - apply (proj1 (proj2 (proj2 (glucose_interpretation_one_tick 150)))).
    discriminate.
  - apply (proj1 (proj2 (proj2 (proj2 (proj2
             (glucose_interpretation_one_tick 150)))))).
    split; [discriminate | reflexivity].
Defined.

(** ** Risk against glucose *)

(** X5.  The risk does not grow with glucose: every value from 126 and
    below 140 has risk Tinggi, and every value from 140 and below 200,
    though larger, has risk Sedang. *)
Theorem risk_not_monotone (g g' : Q) :
  (126 <= g)%Q -> (g < 140)%Q -> (140 <= g')%Q -> (g' < 200)%Q ->
  (g < g')%Q /\
  risk_of (analyze_glucose_level g) = "Tinggi"%string /\
  risk_of (analyze_glucose_level g') = "Sedang"%string.
Proof.
  intros H1 H2 H3 H4. split; [by eapply Qlt_le_trans|].
  rewrite (analyze_diabetes_fasting g H1 H2).
  rewrite (analyze_prediabetes_2h g' H3 H4). by split.
Qed.

Lemma risk_not_monotone_witness :
  (130 < 150)%Q /\
  risk_of (analyze_glucose_level 130) = "Tinggi"%string /\
  risk_of (analyze_glucose_level 150) = "Sedang"%string.
Proof.
  apply (risk_not_monotone 130 150);
    first [discriminate | reflexivity].
Defined.

(** ** The glucose scale *)

(** X6.  The bands of the glucose scale are the bands of the categorizer:
    every value from 0 and below 400 lies in a band of the scale, and a
    value in a band has the band's label as its category; the bands are
    joined at the reference lines 100, 126, 140, 200 and their bars cover
    0 to 400. *)
Theorem scale_matches_categorizer :
  (forall g, (0 <= g < 400)%Z ->
     exists start end_ label color,
       (start, end_, label, color) ∈ ranges /\ (start <= g < end_)%Z) /\
  (forall start end_ label color g,
     (start, end_, label, color) ∈ ranges -> (start <= g < end_)%Z ->
     category_of (analyze_glucose_level (inject_Z g)) = one_line label) /\
  map (fun b => b.1.1.2) (take 4 ranges) = thresholds /\
  map (fun b => b.1.1.1) (drop 1 ranges) = thresholds /\
  foldr Z.add 0%Z (map snd scale_bars) = 400%Z.
Proof.
  split; [|split; [|by repeat split]].
  - intros g Hg. unfold ranges.
    destruct (Z.lt_ge_cases g 100);
      [do 4 eexists; split; [apply list_elem_of_here|lia]|].
    destruct (Z.lt_ge_cases g 126);
      [do 4 eexists; split;
         [apply list_elem_of_further, list_elem_of_here|lia]|].
    destruct (Z.lt_ge_cases g 140);
      [do 4 eexists; split;
         [do 2 apply list_elem_of_further; apply list_elem_of_here|lia]|].
    destruct (Z.lt_ge_cases g 200);
      [do 4 eexists; split;
         [do 3 apply list_elem_of_further; apply list_elem_of_here|lia]|].
    do 4 eexists; split;
      [do 4 apply list_elem_of_further; apply list_elem_of_here|lia].
  - intros start end_ label color g Hin Hg. unfold ranges in Hin.
    repeat (apply elem_of_cons in Hin as [[= -> -> -> ->]|Hin]);
      [..|by apply elem_of_nil in Hin];
      unfold analyze_glucose_level; band; reflexivity.
Qed.

Lemma scale_matches_categorizer_witness :
  category_of (analyze_glucose_level (inject_Z 130)) =
    one_line "Diabetes
(Puasa)".
Proof.
  apply (proj1 (proj2 scale_matches_categorizer)
           126%Z 140%Z _ "#dc3545"%string 130%Z).
  - do 2 apply list_elem_of_further. apply list_elem_of_here.
  - split; [discriminate | reflexivity].
Defined.

(** ** The label shown *)

(** X7.  The result box and the history show the same status for every
    label: label 0 is Non-Diabetes in both, and any other label, whatever
    it is, is Diabetes in both. *)
Theorem result_headline_matches_history (e : HistoryEntry) :
  (prediction e = 0%Z ->
     result_headline (prediction e) = "✅ NON-DIABETES"%string /\
     status_text e = "Non-Diabetes ✅"%string) /\
  (prediction e <> 0%Z ->
     result_headline (prediction e) = "⚠️ DIABETES"%string /\
     status_text e = "Diabetes ⚠️"%string).
Proof.
  unfold result_headline, status_text. split; intros H.
  - by rewrite H.
  - apply Z.eqb_neq in H. by rewrite H.
Qed.

Lemma result_headline_matches_history_witness :
  (result_headline (prediction (sample_entry 120)) = "✅ NON-DIABETES"%string /\
   status_text (sample_entry 120) = "Non-Diabetes ✅"%string) /\
  (result_headline
     (prediction (mkHistoryEntry default_input 2 [] "" 120 "")) =
     "⚠️ DIABETES"%string /\
   status_text (mkHistoryEntry default_input 2 [] "" 120 "") =
     "Diabetes ⚠️"%string).
Proof.
  split.
  - apply (proj1 (result_headline_matches_history (sample_entry 120))).
    reflexivity.
  - apply (proj2 (result_headline_matches_history
                    (mkHistoryEntry default_input 2 [] "" 120 ""))).
    discriminate.
Defined.

(** ** What a prediction returns *)

(** X8.  make_prediction returns a label exactly when it returns
    probabilities: both come from a run in which nothing was raised, and
    both are [None] otherwise, so testing the label alone guards both. *)
Theorem make_prediction_label_iff_probabilities (model : Model)
    (scaler : Scaler) (input_df : PatientInput) :
  ((make_prediction model scaler input_df).1 = None <->
   (make_prediction model scaler input_df).2 = None) /\
  ((make_prediction model scaler input_df).1 = None <->
   exists msg, make_prediction_try model scaler input_df = Raise msg).
Proof.
  unfold make_prediction.
  destruct (make_prediction_try model scaler input_df) as [[p0 pr0]|msg];
    simpl.
  - split; split; try discriminate. intros [msg H]. discriminate.
  - split; split; eauto.
Qed.

(** ** What a submission stores *)

Lemma load_models_cases disk :
  (exists model scaler,
     best_diabetes_model_pkl disk = Some model /\
     scaler_pkl disk = Some scaler /\
     load_models disk = (Some model, Some scaler)) \/
  ((best_diabetes_model_pkl disk = None \/ scaler_pkl disk = None) /\
   load_models disk = (None, None)).
Proof.
  unfold load_models.
  destruct (best_diabetes_model_pkl disk) as [model|],
    (scaler_pkl disk) as [scaler|]; eauto 8.
Qed.

(** The entry a submission builds. *)
Lemma predict_section_cases predict_button disk now input_df st :
  predict_section predict_button disk now input_df st = st \/
  predict_button = true /\
  exists model scaler p0 pr0,
    load_models disk = (Some model, Some scaler) /\
    make_prediction_try model scaler input_df = Ok (p0, pr0) /\
    predict_section predict_button disk now input_df st =
      {| prediction_history :=
           prediction_history st ++
           [mkHistoryEntry input_df p0 pr0 now (Glucose input_df)
              (category_of
                 (analyze_glucose_level (inject_Z (Glucose input_df))))];
         current_prediction :=
           Some (mkHistoryEntry input_df p0 pr0 now (Glucose input_df)
                   (category_of
                      (analyze_glucose_level
                         (inject_Z (Glucose input_df))))) |}.
Proof.
  unfold predict_section. destruct predict_button; [|by left].
  destruct (load_models disk) as [[model|] [scaler|]]; try by left.
  unfold make_prediction.
  destruct (make_prediction_try model scaler input_df) as [[p0 pr0]|msg]
    eqn:E; [|by left].
  right. split; [reflexivity|]. by exists model, scaler, p0, pr0.
Qed.

(** X9.  A submission leaves the session state as it was exactly when it
    failed, that is when a file did not load or the prediction raised;
    every other submission makes the history one entry longer. *)
Theorem submission_unchanged_iff_failed (disk : Disk) (now : string)
    (input_df : PatientInput) (st : SessionState) :
  (predict_section true disk now input_df st = st <->
   best_diabetes_model_pkl disk = None \/
   scaler_pkl disk = None \/
   exists model scaler msg,
     load_models disk = (Some model, Some scaler) /\
     make_prediction_try model scaler input_df = Raise msg) /\
  (predict_section true disk now input_df st = st \/
   length (prediction_history (predict_section true disk now input_df st)) =
     S (length (prediction_history st))).
Proof.
  destruct (load_models_cases disk)
    as [(model & scaler & Hm & Hs & HL) | [Hnone HL]].
  - destruct (make_prediction_try model scaler input_df) as [[p0 pr0]|msg]
      eqn:E.
    + assert (predict_section true disk now input_df st =
              {| prediction_history :=
                   prediction_history st ++
                   [mkHistoryEntry input_df p0 pr0 now (Glucose input_df)
                      (category_of
                         (analyze_glucose_level
                            (inject_Z (Glucose input_df))))];
                 current_prediction :=
                   Some (mkHistoryEntry input_df p0 pr0 now (Glucose input_df)
                           (category_of
                              (analyze_glucose_level
                                 (inject_Z (Glucose input_df))))) |}) as Hp.
      { unfold predict_section, make_prediction. by rewrite HL, E. }
      rewrite Hp. split.
      * split.
        -- intros Heq. apply (f_equal prediction_history) in Heq.
           apply (f_equal length) in Heq. simpl in Heq.
           rewrite length_app in Heq. simpl in Heq. lia.
        -- intros [H | [H | (model' & scaler' & msg & HL' & HR)]];
             congruence.
      * right. simpl. rewrite length_app. simpl. lia.
    + assert (predict_section true disk now input_df st = st) as Hp.
      { unfold predict_section, make_prediction. by rewrite HL, E. }
      split; [|by left]. split; [|done].
      intros _. right. right. by exists model, scaler, msg.
  - assert (predict_section true disk now input_df st = st) as Hp.
    { unfold predict_section. by rewrite HL. }
    split; [|by left]. split; [|done].
    intros _. destruct Hnone; auto.
Qed.

(** What one interaction does to the session. *)
Lemma run_script_cases ui predict_button clear_button disk now st :
  run_script ui predict_button clear_button disk now st = st \/
  (clear_button = true /\ prediction_history st <> [] /\
   run_script ui predict_button clear_button disk now st =
     {| prediction_history := [];
        current_prediction := current_prediction st |}) \/
  (predict_button = true /\
   exists model scaler p0 pr0,
     load_models disk = (Some model, Some scaler) /\
     make_prediction_try model scaler (get_user_input ui) = Ok (p0, pr0) /\
     run_script ui predict_button clear_button disk now st =
       {| prediction_history :=
            prediction_history st ++
            [mkHistoryEntry (get_user_input ui) p0 pr0 now
               (Glucose (get_user_input ui))
               (category_of
                  (analyze_glucose_level
                     (inject_Z (Glucose (get_user_input ui)))))];
          current_prediction :=
            Some (mkHistoryEntry (get_user_input ui) p0 pr0 now
                    (Glucose (get_user_input ui))
                    (category_of
                       (analyze_glucose_level
                          (inject_Z (Glucose (get_user_input ui)))))) |}).
Proof.
  unfold run_script, script_pass, clear_section.
  destruct (prediction_history st) as [|e0 h] eqn:Eh.
  - destruct (predict_section_cases predict_button disk now
                (get_user_input ui) st)
      as [-> | (-> & model & scaler & p0 & pr0 & HL & HT & ->)]; [by left|].
    right. right. split; [reflexivity|]. rewrite Eh.
    by exists model, scaler, p0, pr0.
  - destruct clear_button.
    + right. left. split; [reflexivity|]. split; [discriminate|].
      reflexivity.
    + destruct (predict_section_cases predict_button disk now
                  (get_user_input ui) st)
        as [-> | (-> & model & scaler & p0 & pr0 & HL & HT & ->)]; [by left|].
      right. right. split; [reflexivity|]. rewrite Eh.
      by exists model, scaler, p0, pr0.
Qed.

(** X10.  An interaction does one of three things to the session: it
    leaves it as it is; or, on a click on clear with a history to clear,
    it empties the history and keeps the current prediction; or, on a
    click on predict, it appends one entry, built from the sliders and
    the clock, and makes it the current prediction.  Entries stored
    before are never changed or reordered. *)
Theorem run_script_effect (ui : Sidebar) (predict_button clear_button : bool)
    (disk : Disk) (now : string) (st : SessionState) :
  run_script ui predict_button clear_button disk now st = st \/
  (clear_button = true /\ prediction_history st <> [] /\
   run_script ui predict_button clear_button disk now st =
     {| prediction_history := [];
        current_prediction := current_prediction st |}) \/
  (predict_button = true /\
   exists e,
     data e = get_user_input ui /\ timestamp e = now /\
     entry_consistent e /\
     run_script ui predict_button clear_button disk now st =
       {| prediction_history := prediction_history st ++ [e];
          current_prediction := Some e |}).
Proof.
  destruct (run_script_cases ui predict_button clear_button disk now st)
    as [H | [H | (Hp & model & scaler & p0 & pr0 & _ & _ & H)]].
  - by left.
  - right. by left.
  - right. right. split; [exact Hp|].
    eexists. split; [|split; [|split; [|exact H]]]; try reflexivity.
    split; reflexivity.
Qed.

(** ** The current prediction and the history *)

(** X11.  In every state a session can reach, a history that is not empty
    ends with the current prediction, a session with no current
    prediction has an empty history, and the current prediction agrees
    with its own input snapshot. *)
Theorem current_prediction_is_last (st : SessionState) :
  reachable st ->
  (prediction_history st = [] \/
   last (prediction_history st) = current_prediction st) /\
  (current_prediction st = None -> prediction_history st = []) /\
  (forall e, current_prediction st = Some e -> entry_consistent e).
Proof.
  intros Hreach.
  induction Hreach as [|ui pb cb disk now st _ (IH1 & IH2 & IH3)].
  - repeat split; [by left | done | discriminate].
  - destruct (run_script_cases ui pb cb disk now st)
      as [-> | [(_ & _ & ->) | (_ & model & scaler & p0 & pr0 & _ & _ & ->)]];
      simpl.
    + exact (conj IH1 (conj IH2 IH3)).
    + split; [by left|]. split; [done|exact IH3].
    + split; [right; apply last_snoc|]. split; [discriminate|].
      intros e [= <-]. split; reflexivity.
Qed.

Lemma current_prediction_is_last_witness :
  (prediction_history
     (run_script fresh_sidebar true false stub_disk "2024-01-02 08:30:00"
        initial_state) = [] \/
   last (prediction_history
           (run_script fresh_sidebar true false stub_disk
              "2024-01-02 08:30:00" initial_state)) =
     current_prediction
       (run_script fresh_sidebar true false stub_disk "2024-01-02 08:30:00"
          initial_state)) /\
  (current_prediction
     (run_script fresh_sidebar true false stub_disk "2024-01-02 08:30:00"
        initial_state) = None ->
   prediction_history
     (run_script fresh_sidebar true false stub_disk "2024-01-02 08:30:00"
        initial_state) = []) /\
  (forall e,
     current_prediction
       (run_script fresh_sidebar true false stub_disk "2024-01-02 08:30:00"
          initial_state) = Some e ->
     entry_consistent e).
Proof.
  apply (current_prediction_is_last
           (run_script fresh_sidebar true false stub_disk
              "2024-01-02 08:30:00" initial_state)).
  apply reachable_step, reachable_init.
Defined.

(** ** The display after a submission *)

Lemma take_imap {A B} (f : nat -> A -> B) (n : nat) (l : list A) :
  take n (imap f l) = imap f (take n l).
Proof.
  apply list_eq. intros i.
  destruct (decide (i < n)) as [Hi|Hi].
  - by rewrite lookup_take_lt, !list_lookup_imap, lookup_take_lt.
  - rewrite lookup_take_ge, list_lookup_imap, lookup_take_ge by lia.
    reflexivity.
Qed.

(** X12.  A new entry is drawn first, as number 1; the entries drawn
    before move one place down, each number growing by one, and only the
    first four of them stay on the display. *)
Theorem history_section_shift (history : list HistoryEntry)
    (e : HistoryEntry) (current current' : option HistoryEntry) :
  history_section
    {| prediction_history := history ++ [e]; current_prediction := current |} =
  (1, e) ::
    map (fun p => (S p.1, p.2))
      (take 4
         (history_section
            {| prediction_history := history;
               current_prediction := current' |})).
Proof.
  unfold history_section. simpl.
  rewrite recent_entries_snoc, imap_cons. f_equal.
  rewrite take_imap.
  change (map ?f ?l) with (f <$> l). rewrite fmap_imap.
  by apply imap_ext.
Qed.

(** ** The feature importance chart *)

#[global] Instance importance_le_trans : Transitive importance_le.
Proof. intros r1 r2 r3. unfold importance_le. apply Qle_trans. Qed.

#[global] Instance importance_le_total : Total importance_le.
Proof.
  intros r1 r2. unfold importance_le.
  destruct (Qlt_le_dec (Importance r2) (Importance r1)) as [H|H].
  - right. by apply Qlt_le_weak.
  - by left.
Qed.

(** Merge sort is a [sort_values]. *)
Lemma merge_sort_sorts_by_importance :
  sorts_by_importance (merge_sort importance_le).
Proof.
  intros frame. split.
  - apply merge_sort_Permutation.
  - apply Sorted_merge_sort. apply _.
Qed.

Lemma length_8_inv {A} (l : list A) :
  length l = 8 ->
  exists v0 v1 v2 v3 v4 v5 v6 v7, l = [v0; v1; v2; v3; v4; v5; v6; v7].
Proof.
  intros H. do 8 (destruct l as [|? l]; [discriminate|]).
  destruct l; [|discriminate]. by do 8 eexists.
Qed.

Lemma importance_frame_length importances frame :
  importance_frame importances = Ok frame -> length importances = 8.
Proof.
  unfold importance_frame.
  destruct (length importances =? length feature_names)%nat eqn:E;
    [|discriminate].
  intros _. by apply Nat.eqb_eq in E.
Qed.

Lemma importance_frame_short importances :
  length importances <> 8 -> importance_frame importances = Raise "ValueError".
Proof.
  intros H. unfold importance_frame.
  destruct (length importances =? length feature_names)%nat eqn:E;
    [|reflexivity].
  by apply Nat.eqb_eq in E.
Qed.

Lemma filter_Permutation_bool {A} (f : A -> bool) (l l' : list A) :
  l ≡ₚ l' -> List.filter f l ≡ₚ List.filter f l'.
Proof.
  induction 1 as [|x l l' _ IH|x y l|l l' l'' _ IH1 _ IH2]; simpl.
  - reflexivity.
  - destruct (f x); [by constructor | exact IH].
  - destruct (f x), (f y); try reflexivity. apply perm_swap.
  - by etrans.
Qed.

Lemma existsb_Permutation {A} (f : A -> bool) (l l' : list A) :
  l ≡ₚ l' -> existsb f l = existsb f l'.
Proof.
  induction 1 as [|x l l' _ IH|x y l|l l' l'' _ IH1 _ IH2]; simpl.
  - reflexivity.
  - by rewrite IH.
  - destruct (f x), (f y); reflexivity.
  - by etrans.
Qed.

Lemma StronglySorted_lookup_le {A} (R : A -> A -> Prop) (l : list A) i j x y :
  StronglySorted R l -> i < j -> l !! i = Some x -> l !! j = Some y -> R x y.
Proof.
  intros Hs. revert i j. induction Hs as [|a l Hs IH Hall]; intros i j Hij Hi Hj.
  - discriminate.
  - destruct j as [|j]; [lia|]. destruct i as [|i]; simpl in *.
    + injection Hi as <-. rewrite Forall_forall in Hall.
      apply Hall. by eapply list_elem_of_lookup_2.
    + apply (IH i j); [lia | done | done].
Qed.

Lemma barh_lookup feature_importance i :
  barh feature_importance (colors_imp feature_importance) !! i =
    (fun r => mkBar (Fitur r) (Importance r)
                (if contains "Glukosa" (Fitur r)
                 then "#3498db"%string else "#95a5a6"%string)
                "black" None) <$> feature_importance !! i.
Proof.
  unfold barh, colors_imp. rewrite lookup_zip_with.
  change (map ?f ?l) with (f <$> l). rewrite list_lookup_fmap.
  by destruct (feature_importance !! i).
Qed.

Lemma barh_length feature_importance :
  length (barh feature_importance (colors_imp feature_importance)) =
    length feature_importance.
Proof.
  unfold barh, colors_imp. rewrite length_zip_with, length_map. lia.
Qed.

Section Chart.
Variable sort_values : list ImportanceRow -> list ImportanceRow.
Hypothesis sort_values_sorts : sorts_by_importance sort_values.

(** With eight importances the rows of Glukosa are the one row labelled
    1, wherever sorting puts it. *)
Lemma glucose_rows_sorted importances frame :
  importance_frame importances = Ok frame ->
  exists g,
    importances !! 1 = Some g /\
    mkImportanceRow 1 "Glukosa" g ∈ frame /\
    glucose_rows (sort_values frame) = [mkImportanceRow 1 "Glukosa" g] /\
    existsb (fun r => String.eqb (Fitur r) "Glukosa") (sort_values frame) = true /\
    length (sort_values frame) = 8.
Proof.
  intros Hf. pose proof (importance_frame_length _ _ Hf) as Hlen.
  destruct (length_8_inv _ Hlen) as (v0 & v1 & v2 & v3 & v4 & v5 & v6 & v7 & ->).
  injection Hf as <-. exists v1.
  destruct (sort_values_sorts
              (imap (fun i nv => mkImportanceRow i nv.1 nv.2)
                 (zip feature_names [v0; v1; v2; v3; v4; v5; v6; v7])))
    as [Hperm _].
  split; [reflexivity|]. split; [|split; [|split]].
  - simpl. apply list_elem_of_further, list_elem_of_here.
  - apply Permutation_singleton_r. unfold glucose_rows.
    by rewrite (filter_Permutation_bool _ _ _ Hperm).
  - by rewrite (existsb_Permutation _ _ _ Hperm).
  - by rewrite Hperm.
Qed.

(** What the [try] block gives with eight importances. *)
Lemma feature_importance_try_frame importances frame :
  importance_frame importances = Ok frame ->
  exists b1,
    barh (sort_values frame) (colors_imp (sort_values frame)) !! 1 = Some b1 /\
    feature_importance_try sort_values importances =
      Ok (<[1 := highlight b1]>
            (barh (sort_values frame) (colors_imp (sort_values frame)))).
Proof.
  intros Hf.
  destruct (glucose_rows_sorted _ _ Hf) as (g & _ & _ & Hrows & Hex & Hlen).
  destruct (lookup_lt_is_Some_2
              (barh (sort_values frame) (colors_imp (sort_values frame))) 1)
    as [b1 Hb1]; [rewrite barh_length; lia|].
  exists b1. split; [exact Hb1|].
  unfold feature_importance_try, mbind, result_bind, mret, result_ret.
  rewrite Hf, Hex, Hrows. simpl. unfold getitem. by rewrite Hb1.
Qed.

Lemma barh_fmap_y feature_importance :
  bar_y <$> barh feature_importance (colors_imp feature_importance) =
    Fitur <$> feature_importance.
Proof.
  apply list_eq. intros i.
  rewrite !list_lookup_fmap, barh_lookup.
  by destruct (feature_importance !! i).
Qed.

Lemma barh_fmap_width feature_importance :
  bar_width <$> barh feature_importance (colors_imp feature_importance) =
    Importance <$> feature_importance.
Proof.
  apply list_eq. intros i.
  rewrite !list_lookup_fmap, barh_lookup.
  by destruct (feature_importance !! i).
Qed.

(** X13.  The chart is drawn only for a classifier that has importances
    and has eight of them; any other number is dropped silently with the
    chart.  When drawn it has eight bars, one for each feature name, with
    the importances as widths in ascending order from the bottom. *)
Theorem feature_importance_chart_drawn (importances : list Q) :
  feature_importance_chart sort_values None = None /\
  (length importances <> 8 ->
   feature_importance_chart sort_values (Some importances) = None) /\
  (length importances = 8 ->
   exists bars2,
     feature_importance_chart sort_values (Some importances) = Some bars2 /\
     length bars2 = 8 /\
     bar_y <$> bars2 ≡ₚ feature_names /\
     bar_width <$> bars2 ≡ₚ importances /\
     StronglySorted Qle (bar_width <$> bars2)).
Proof.
  split; [reflexivity|]. split.
  - intros Hlen. unfold feature_importance_chart, feature_importance_try.
    by rewrite (importance_frame_short _ Hlen).
  - intros Hlen.
    destruct (length_8_inv _ Hlen)
      as (v0 & v1 & v2 & v3 & v4 & v5 & v6 & v7 & ->).
    set (frame := imap (fun i nv => mkImportanceRow i nv.1 nv.2)
                    (zip feature_names [v0; v1; v2; v3; v4; v5; v6; v7])).
    assert (importance_frame [v0; v1; v2; v3; v4; v5; v6; v7] = Ok frame)
      as Hf by reflexivity.
    destruct (feature_importance_try_frame _ _ Hf) as (b1 & Hb1 & Htry).
    destruct (sort_values_sorts frame) as [Hperm Hsorted].
    eexists. split; [unfold feature_importance_chart; by rewrite Htry|].
    split.
    { rewrite length_insert, barh_length.
      by rewrite (Permutation_length Hperm). }
    rewrite !list_fmap_insert. simpl.
    rewrite (list_insert_id (bar_y <$> _)), (list_insert_id (bar_width <$> _))
      by (rewrite list_lookup_fmap, Hb1; reflexivity).
    rewrite barh_fmap_y, barh_fmap_width.
    split; [exact (fmap_Permutation Fitur _ _ Hperm)|].
    split; [exact (fmap_Permutation Importance _ _ Hperm)|].
    apply (StronglySorted_fmap _ importance_le); [done|].
    by apply Sorted_StronglySorted; [apply _|].
Qed.

Lemma feature_importance_chart_Some importances bars2 :
  feature_importance_chart sort_values (Some importances) = Some bars2 ->
  exists frame b1,
    importance_frame importances = Ok frame /\
    barh (sort_values frame) (colors_imp (sort_values frame)) !! 1 = Some b1 /\
    bars2 = <[1 := highlight b1]>
              (barh (sort_values frame) (colors_imp (sort_values frame))).
Proof.
  unfold feature_importance_chart. intros H.
  destruct (importance_frame importances) as [frame|msg] eqn:Hf.
  - destruct (feature_importance_try_frame _ _ Hf) as (b1 & Hb1 & Htry).
    rewrite Htry in H. injection H as <-. by exists frame, b1.
  - unfold feature_importance_try, mbind, result_bind in H.
    rewrite Hf in H. discriminate.
Qed.

(** Of the eight names only Glukosa has Glukosa in it. *)
Lemma frame_row_color importances frame r :
  importance_frame importances = Ok frame -> r ∈ frame ->
  (contains "Glukosa" (Fitur r) = true /\ Fitur r = "Glukosa"%string) \/
  (contains "Glukosa" (Fitur r) = false /\ Fitur r <> "Glukosa"%string).
Proof.
  intros Hf Hin. pose proof (importance_frame_length _ _ Hf) as Hlen.
  destruct (length_8_inv _ Hlen)
    as (v0 & v1 & v2 & v3 & v4 & v5 & v6 & v7 & ->).
  injection Hf as <-. simpl in Hin.
  repeat (apply elem_of_cons in Hin as [->|Hin]);
    [..|by apply elem_of_nil in Hin]; simpl;
    first [ by left | right; by split ].
Qed.

(** X14.  In the chart the blue bar is the bar of Glukosa and no other,
    while the red edge drawn to highlight glucose is on the bar at
    position 1, the second from the bottom, whichever feature that is:
    the position is taken from the index label of the Glukosa row, which
    sorting does not change. *)
Theorem feature_importance_chart_highlight (importances : list Q)
    (bars2 : list Bar) (i : nat) (b : Bar) :
  feature_importance_chart sort_values (Some importances) = Some bars2 ->
  bars2 !! i = Some b ->
  (bar_color b = "#3498db"%string <-> bar_y b = "Glukosa"%string) /\
  (bar_color b = "#95a5a6"%string <-> bar_y b <> "Glukosa"%string) /\
  (bar_edgecolor b = "red"%string <-> i = 1) /\
  (bar_edgecolor b = "black"%string <-> i <> 1).
Proof.
  intros Hchart Hb.
  destruct (feature_importance_chart_Some _ _ Hchart)
    as (frame & b1 & Hf & Hb1 & ->).
  destruct (sort_values_sorts frame) as [Hperm _].
  assert (forall k bk,
            barh (sort_values frame) (colors_imp (sort_values frame)) !! k =
              Some bk ->
            bar_edgecolor bk = "black"%string /\
            ((bar_color bk = "#3498db"%string /\ bar_y bk = "Glukosa"%string) \/
             (bar_color bk = "#95a5a6"%string /\ bar_y bk <> "Glukosa"%string)))
    as Hbar.
  { intros k bk Hk. rewrite barh_lookup in Hk.
    destruct (sort_values frame !! k) as [r|] eqn:Hr; [|discriminate].
    injection Hk as <-. simpl. split; [reflexivity|].
    assert (r ∈ frame) as Hin
      by (rewrite <- Hperm; by eapply list_elem_of_lookup_2).
    destruct (frame_row_color _ _ _ Hf Hin) as [[-> ?]|[-> ?]]; auto. }
  destruct (decide (i = 1)) as [->|Hi].
  - rewrite list_lookup_insert_eq in Hb
      by (by eapply lookup_lt_Some).
    injection Hb as <-. destruct (Hbar 1 b1 Hb1) as [_ Hcol]. simpl.
    destruct Hcol as [[-> ->]|[-> Hy]].
    + repeat split; try done.
    + repeat split; try done; try (intros; congruence).
  - rewrite list_lookup_insert_ne in Hb by done.
    destruct (Hbar i b Hb) as [-> Hcol].
    destruct Hcol as [[-> ->]|[-> Hy]].
    + repeat split; try done.
    + repeat split; try done; try (intros; congruence).
Qed.

(** X15.  When Glukosa has the strictly largest importance its bar is the
    top one, position 7, blue and with the plain black edge; the red edge
    is on the bar at position 1, which is the bar of another feature. *)
Theorem glucose_most_important_not_highlighted (importances : list Q) (g : Q) :
  length importances = 8 ->
  importances !! 1 = Some g ->
  (forall j v, j <> 1 -> importances !! j = Some v -> (v < g)%Q) ->
  exists bars2 b1,
    feature_importance_chart sort_values (Some importances) = Some bars2 /\
    bars2 !! 7 = Some (mkBar "Glukosa" g "#3498db" "black" None) /\
    bars2 !! 1 = Some b1 /\
    bar_edgecolor b1 = "red"%string /\
    bar_y b1 <> "Glukosa"%string.
Proof.
  intros Hlen Hg Hmax.
  destruct (length_8_inv _ Hlen)
    as (v0 & v1 & v2 & v3 & v4 & v5 & v6 & v7 & ->).
  injection Hg as ->.
  set (frame := imap (fun i nv => mkImportanceRow i nv.1 nv.2)
                  (zip feature_names [v0; g; v2; v3; v4; v5; v6; v7])).
  assert (importance_frame [v0; g; v2; v3; v4; v5; v6; v7] = Ok frame)
    as Hf by reflexivity.
  destruct (feature_importance_try_frame _ _ Hf) as (b1 & Hb1 & Htry).
  destruct (sort_values_sorts frame) as [Hperm Hsorted].
  apply Sorted_StronglySorted in Hsorted; [|apply _].
  pose proof (Permutation_length Hperm) as Hlen8.
  change (length frame) with 8 in Hlen8.
  set (rg := mkImportanceRow 1 "Glukosa" g).
  assert (NoDup (sort_values frame)) as Hnd.
  { rewrite Hperm. apply (NoDup_fmap_1 row_label). apply (NoDup_seq 0 8). }
  (* every other row is strictly less important *)
  assert (forall r, r ∈ frame -> r = rg \/ (Importance r < g)%Q) as Hrows.
  { intros r Hin. subst frame. simpl in Hin.
    repeat (apply elem_of_cons in Hin as [->|Hin]);
      [..|by apply elem_of_nil in Hin]; simpl;
      first [ by left
            | right; by apply (Hmax 0)
            | right; by apply (Hmax 2)
            | right; by apply (Hmax 3)
            | right; by apply (Hmax 4)
            | right; by apply (Hmax 5)
            | right; by apply (Hmax 6)
            | right; by apply (Hmax 7) ]. }
  assert (rg ∈ sort_values frame) as Hrg.
  { rewrite Hperm. subst frame. simpl.
    apply list_elem_of_further, list_elem_of_here. }
  apply list_elem_of_lookup in Hrg as [k Hk].
  pose proof (lookup_lt_Some _ _ _ Hk) as Hk8.
  (* the row of Glukosa is the last one *)
  assert (sort_values frame !! 7 = Some rg) as H7.
  { destruct (lookup_lt_is_Some_2 (sort_values frame) 7) as [r7 Hr7]; [lia|].
    assert (r7 ∈ frame) as Hin
      by (rewrite <- Hperm; by eapply list_elem_of_lookup_2).
    destruct (Hrows r7 Hin) as [->|Hlt]; [exact Hr7|].
    destruct (decide (k = 7)) as [->|Hk7]; [congruence|].
    exfalso. apply (Qlt_not_le _ _ Hlt).
    apply (StronglySorted_lookup_le importance_le (sort_values frame) k 7 rg r7);
      [done | lia | done | done]. }
  exists (<[1 := highlight b1]>
            (barh (sort_values frame) (colors_imp (sort_values frame)))),
    (highlight b1).
  split; [unfold feature_importance_chart; by rewrite Htry|].
  split; [|split; [|split]].
  - rewrite list_lookup_insert_ne by lia.
    by rewrite barh_lookup, H7.
  - apply list_lookup_insert_eq. by eapply lookup_lt_Some.
  - reflexivity.
  - rewrite barh_lookup in Hb1.
    destruct (sort_values frame !! 1) as [r1|] eqn:Hr1; [|discriminate].
    injection Hb1 as <-. simpl.
    assert (r1 ∈ frame) as Hin
      by (rewrite <- Hperm; by eapply list_elem_of_lookup_2).
    destruct (frame_row_color _ _ _ Hf Hin) as [[_ Hname]|[_ Hname]];
      [|exact Hname].
    exfalso.
    destruct (Hrows r1 Hin) as [->|Hlt].
    + pose proof (NoDup_lookup _ _ _ _ Hnd Hr1 H7). lia.
    + subst frame. simpl in Hin.
      repeat (apply elem_of_cons in Hin as [->|Hin]);
        [..|by apply elem_of_nil in Hin]; simpl in *;
        first [ discriminate Hname | by apply Qlt_irrefl in Hlt ].
Qed.
End Chart.

Lemma feature_importance_chart_drawn_witness :
  exists bars2,
    feature_importance_chart (merge_sort importance_le)
      (Some [0.10; 0.30; 0.08; 0.07; 0.09; 0.16; 0.11; 0.09]%Q) = Some bars2 /\
    length bars2 = 8 /\
    bar_y <$> bars2 ≡ₚ feature_names /\
    bar_width <$> bars2 ≡ₚ [0.10; 0.30; 0.08; 0.07; 0.09; 0.16; 0.11; 0.09]%Q /\
    StronglySorted Qle (bar_width <$> bars2).
Proof.
  apply (proj2 (proj2 (feature_importance_chart_drawn
                         (merge_sort importance_le)
                         merge_sort_sorts_by_importance
                         [0.10; 0.30; 0.08; 0.07; 0.09; 0.16; 0.11; 0.09]%Q))).
  reflexivity.
Defined.

Lemma feature_importance_chart_highlight_witness :
  (bar_color (mkBar "Tekanan Darah" 0.08 "#95a5a6" "red" (Some 2%Z)) =
     "#3498db"%string <->
   bar_y (mkBar "Tekanan Darah" 0.08 "#95a5a6" "red" (Some 2%Z)) =
     "Glukosa"%string) /\
  (bar_color (mkBar "Tekanan Darah" 0.08 "#95a5a6" "red" (Some 2%Z)) =
     "#95a5a6"%string <->
   bar_y (mkBar "Tekanan Darah" 0.08 "#95a5a6" "red" (Some 2%Z)) <>
     "Glukosa"%string) /\
  (bar_edgecolor (mkBar "Tekanan Darah" 0.08 "#95a5a6" "red" (Some 2%Z)) =
     "red"%string <-> 1 = 1) /\
  (bar_edgecolor (mkBar "Tekanan Darah" 0.08 "#95a5a6" "red" (Some 2%Z)) =
     "black"%string <-> 1 <> 1).
Proof.
  apply (feature_importance_chart_highlight
           (merge_sort importance_le) merge_sort_sorts_by_importance
           [0.10; 0.30; 0.08; 0.07; 0.09; 0.16; 0.11; 0.09]%Q
           (default []
              (feature_importance_chart (merge_sort importance_le)
                 (Some [0.10; 0.30; 0.08; 0.07; 0.09; 0.16; 0.11; 0.09]%Q))));
    vm_compute; reflexivity.
Defined.

Lemma glucose_most_important_not_highlighted_witness :
  exists bars2 b1,
    feature_importance_chart (merge_sort importance_le)
      (Some [0.10; 0.30; 0.08; 0.07; 0.09; 0.16; 0.11; 0.09]%Q) = Some bars2 /\
    bars2 !! 7 = Some (mkBar "Glukosa" 0.30 "#3498db" "black" None) /\
    bars2 !! 1 = Some b1 /\
    bar_edgecolor b1 = "red"%string /\
    bar_y b1 <> "Glukosa"%string.
Proof.
  apply (glucose_most_important_not_highlighted
           (merge_sort importance_le) merge_sort_sorts_by_importance
           [0.10; 0.30; 0.08; 0.07; 0.09; 0.16; 0.11; 0.09]%Q 0.30%Q).
  - reflexivity.
  - reflexivity.
  - intros j v Hj Hv.
    do 8 (destruct j as [|j];
          [try (exfalso; apply Hj; reflexivity);
           try (injection Hv as <-; reflexivity)|]).
    discriminate Hv.
Defined.

(** ** Repeated submissions *)

(** X16.  Nothing is deduplicated: submitting the same input twice stores
    two entries, equal but for their timestamps, the second after the
    first. *)
Theorem same_input_twice_two_entries (disk : Disk) (now now' : string)
    (input_df : PatientInput) (st : SessionState) (model : Model)
    (scaler : Scaler) (p0 : Z) (pr0 : list Q) :
  load_models disk = (Some model, Some scaler) ->
  make_prediction model scaler input_df = (Some p0, Some pr0) ->
  prediction_history
    (predict_section true disk now' input_df
       (predict_section true disk now input_df st)) =
    prediction_history st ++
    [ mkHistoryEntry input_df p0 pr0 now (Glucose input_df)
        (category_of (analyze_glucose_level (inject_Z (Glucose input_df))));
      mkHistoryEntry input_df p0 pr0 now' (Glucose input_df)
        (category_of (analyze_glucose_level (inject_Z (Glucose input_df)))) ].
Proof.
  intros HL HP.
  rewrite (predict_section_success disk now' input_df _ model scaler p0 pr0 HL HP).
  rewrite (predict_section_success disk now input_df st model scaler p0 pr0 HL HP).
  simpl. rewrite <- app_assoc. reflexivity.
Qed.

Lemma same_input_twice_two_entries_witness :
  prediction_history
    (predict_section true stub_disk "2024-01-02 08:31:00" default_input
       (predict_section true stub_disk "2024-01-02 08:30:00" default_input
          initial_state)) =
    prediction_history initial_state ++
    [ mkHistoryEntry default_input 0 [0.8%Q; 0.2%Q] "2024-01-02 08:30:00"
        (Glucose default_input)
        (category_of
           (analyze_glucose_level (inject_Z (Glucose default_input))));
      mkHistoryEntry default_input 0 [0.8%Q; 0.2%Q] "2024-01-02 08:31:00"
        (Glucose default_input)
        (category_of
           (analyze_glucose_level (inject_Z (Glucose default_input)))) ].
Proof.
  apply (same_input_twice_two_entries stub_disk _ _ default_input
           initial_state stub_model identity_scaler 0%Z [0.8%Q; 0.2%Q]);
    reflexivity.
Defined.
